(** * Structured logging and the logging middlewares of magistrala

    A shallow embedding of
    - [logger/slogger.go] and [logger/logger.go] (the two logger
      constructors and the level-gated operations),
    - the logging middlewares of the users service, the certs service,
      the bootstrap service and the message-broker session handler,
    together with the properties of the specification that concern them.

    Go code is embedded in a small monad [Go] over a world that holds the
    clock, the sink written by the JSON handler and a trace of the calls
    made to the two collaborators of a middleware: the wrapped service
    and the logger. *)

From Stdlib Require Import String Ascii List ZArith NArith Bool Lia DecimalString.
Import ListNotations.
#[local] Open Scope string_scope.

(** ** The part of the Go runtime the sources rely on *)
Module Golang.

(** A non-nil [error]; [Error e] is the text of [e.Error()]. *)
Record GoError : Type := errors_New { Error : string }.

(** An [error] value: [None] is [nil]. *)
Definition error : Type := option GoError.

(** [context.Context]: the request-scoped values it carries. *)
Definition Context : Type := list (string * string).

(** How a function call ends: it returns, or it panics. *)
Inductive outcome (A : Type) : Type :=
| Returned (a : A)
| Panicked (reason : string).
Arguments Returned {A} a.
Arguments Panicked {A} reason.

(** Functions of the standard library and declarations of this repository
    that the sources use and that are not modelled further. *)
Class Platform : Type := {
  (** [time.Duration.String] on a number of nanoseconds. *)
  Duration_String : Z -> string;
  (** [ErrInvalidLogLevel], the error of [Level.UnmarshalText]. *)
  ErrInvalidLogLevel : GoError;
  (** [strconv.Quote]: a text as a Go string literal, the verb [%q]. *)
  strconv_Quote : string -> string;
  (** [strings.Map(unicode.ToUpper, s)], which [strings.ToUpper] falls back
      on for a text that is not ASCII. *)
  unicode_ToUpper : string -> string
}.

(** The built-in [append] on slices. *)
Definition append {A : Type} (s : list A) (elems : list A) : list A := (s ++ elems)%list.

Definition dq : string := String (ascii_of_nat 34) EmptyString.

(** A string literal between double quotes. *)
Definition quoted (s : string) : string := dq ++ s ++ dq.

(** [time.RFC3339Nano]: a layout constant of package [time]. *)
Definition time_RFC3339Nano : string := "2006-01-02T15:04:05.999999999Z07:00".

(** [fmt.Sprintf] restricted to the verb [%s]; a verb without an operand
    prints as Go prints it. *)
Fixpoint fmt_Sprintf (format : string) (operands : list string) : string :=
  match format with
  | String "%" (String "s" rest) =>
      match operands with
      | o :: os => o ++ fmt_Sprintf rest os
      | [] => "%!s(MISSING)" ++ fmt_Sprintf rest []
      end
  | String c rest => String c (fmt_Sprintf rest operands)
  | EmptyString => EmptyString
  end.

Definition fmt_Errorf (format : string) (operands : list string) : GoError :=
  errors_New (fmt_Sprintf format operands).

(** [fmt.Sprintf("%v", xs)] for a slice of strings. *)
Definition fmt_Sprintf_v (xs : list string) : string :=
  "[" ++ String.concat " " xs ++ "]".

(** [strings.ToLower] on ASCII text. *)
Definition lower_ascii (c : ascii) : ascii :=
  let n := nat_of_ascii c in
  if andb (Nat.leb 65 n) (Nat.leb n 90) then ascii_of_nat (n + 32) else c.

Fixpoint strings_ToLower (s : string) : string :=
  match s with
  | EmptyString => EmptyString
  | String c rest => String (lower_ascii c) (strings_ToLower rest)
  end.

(** [strings.ToUpper]: a text of ASCII bytes only is mapped byte by byte,
    ['a'..'z'] to ['A'..'Z']; any other text goes through
    [unicode.ToUpper]. *)
Definition upper_ascii (c : ascii) : ascii :=
  let n := nat_of_ascii c in
  if andb (Nat.leb 97 n) (Nat.leb n 122) then ascii_of_nat (n - 32) else c.

Fixpoint isASCII (s : string) : bool :=
  match s with
  | EmptyString => true
  | String c rest => Nat.ltb (nat_of_ascii c) 128 && isASCII rest
  end.

Fixpoint upper_bytes (s : string) : string :=
  match s with
  | EmptyString => EmptyString
  | String c rest => String (upper_ascii c) (upper_bytes rest)
  end.

Definition strings_ToUpper `{Platform} (s : string) : string :=
  if isASCII s then upper_bytes s else unicode_ToUpper s.

(** [strings.IndexAny(s, chars)] for ASCII [chars]: the index of the first
    byte of [s] that is in [chars]; [None] is [-1]. *)
Fixpoint strings_IndexAny (s chars : string) : option nat :=
  match s with
  | EmptyString => None
  | String c rest =>
      if existsb (Ascii.eqb c) (list_ascii_of_string chars) then Some 0
      else option_map S (strings_IndexAny rest chars)
  end.

(** The slices [s[:i]] and [s[i:]]. *)
Definition slice_to (s : string) (i : nat) : string := substring 0 i s.
Definition slice_from (s : string) (i : nat) : string :=
  substring i (String.length s - i) s.

(** The two errors of package [strconv]. *)
Inductive NumErr : Type := ErrSyntax | ErrRange.

Definition NumErr_Error (e : NumErr) : string :=
  match e with
  | ErrSyntax => "invalid syntax"
  | ErrRange => "value out of range"
  end.

Definition maxUint64 : N := 18446744073709551615%N.

(** The loop of [strconv.ParseUint(s, 10, 64)] over the bytes of [s], [n]
    being the number read so far: a byte that is not a decimal digit is a
    syntax error, a number that does not fit 64 bits a range error. *)
Fixpoint ParseUint_loop (s : string) (n : N) : N + NumErr :=
  match s with
  | EmptyString => inl n
  | String c rest =>
      let b := N_of_ascii c in
      if (48 <=? b)%N && (b <=? 57)%N
      then if (maxUint64 / 10 + 1 <=? n)%N then inr ErrRange
           else let n1 := (n * 10 + (b - 48))%N in
                if (maxUint64 <? n1)%N then inr ErrRange else ParseUint_loop rest n1
      else inr ErrSyntax
  end.

Definition strconv_ParseUint (s : string) : N + NumErr :=
  match s with
  | EmptyString => inr ErrSyntax
  | _ => ParseUint_loop s 0
  end.

(** [strconv.ParseInt(s, 10, 0)] where [int] has 64 bits: an optional
    sign, then the digits. *)
Definition strconv_ParseInt (s : string) : Z + NumErr :=
  match s with
  | EmptyString => inr ErrSyntax
  | String c rest =>
      let neg := Ascii.eqb c "-" in
      let digits := if Ascii.eqb c "+" || neg then rest else s in
      match strconv_ParseUint digits with
      | inr ErrSyntax => inr ErrSyntax
      | inr ErrRange => inr ErrRange
      | inl un =>
          let cutoff := (2 ^ 63)%N in
          if negb neg && (cutoff <=? un)%N then inr ErrRange
          else if neg && (cutoff <? un)%N then inr ErrRange
          else inl (if neg then (- Z.of_N un)%Z else Z.of_N un)
      end
  end.

(** [strconv.Atoi]: the number, or the [*NumError] with its text.  The
    shortcut that [Atoi] takes on a short text gives what [ParseInt]
    gives. *)
Definition strconv_Atoi `{Platform} (s : string) : Z + GoError :=
  match strconv_ParseInt s with
  | inl i => inl i
  | inr e =>
      inr (errors_New ("strconv.Atoi: parsing " ++ strconv_Quote s ++ ": " ++ NumErr_Error e))
  end.

(** An [int] of 64 bits after an addition: the sum wraps around. *)
Definition wrap64 (z : Z) : Z := ((z + 2 ^ 63) mod 2 ^ 64 - 2 ^ 63)%Z.


End Golang.
Import Golang.

(** ** Package slog, as far as the sources use it *)
Module slog.

(** A Go value of any type ([interface{}]) as passed to the logger, and the
    [slog.Value] it is turned into.  [AnyAttr] is a value of type
    [slog.Attr]. *)
Inductive GoAny : Type :=
| AnyString (s : string)
| AnyUint64 (n : N)
| AnyError (e : GoError)
| AnyStrings (xs : list string)
| AnyMap (m : list (string * string))
| AnyNamedInt (i : Z)
| AnyAttr (a : Attr)
with Value : Type :=
| StringValue (s : string)
| Uint64Value (n : N)
| KindAny (x : GoAny)
| GroupValue (attrs : list Attr)
with Attr : Type :=
| mkAttr (key : string) (v : Value).

Definition Key (a : Attr) : string := let (k, _) := a in k.
Definition Val (a : Attr) : Value := let (_, v) := a in v.

(** [slog.AnyValue]: strings and unsigned integers get their own kind. *)
Definition AnyValue (x : GoAny) : Value :=
  match x with
  | AnyString s => StringValue s
  | AnyUint64 n => Uint64Value n
  | other => KindAny other
  end.

Definition String_ (key value : string) : GoAny := AnyAttr (mkAttr key (StringValue value)).
Definition Uint64 (key : string) (n : N) : GoAny := AnyAttr (mkAttr key (Uint64Value n)).
Definition Any (key : string) (x : GoAny) : GoAny := AnyAttr (mkAttr key (AnyValue x)).

Definition badKey : string := "!BADKEY".

(** [argsToAttrSlice]: a [slog.Attr] stands for itself, a string is the key
    of the operand after it, anything else gets the key [!BADKEY]. *)
Fixpoint argsToAttrSlice (args : list GoAny) : list Attr :=
  match args with
  | [] => []
  | AnyAttr a :: rest => a :: argsToAttrSlice rest
  | AnyString k :: [] => [mkAttr badKey (StringValue k)]
  | AnyString k :: x :: rest => mkAttr k (AnyValue x) :: argsToAttrSlice rest
  | x :: rest => mkAttr badKey (AnyValue x) :: argsToAttrSlice rest
  end.

Definition Group (key : string) (args : list GoAny) : GoAny :=
  AnyAttr (mkAttr key (GroupValue (argsToAttrSlice args))).

(** [slog.Level] and its four named levels. *)
Definition Level : Type := Z.
Definition LevelDebug : Level := (-4)%Z.
Definition LevelInfo : Level := 0%Z.
Definition LevelWarn : Level := 4%Z.
Definition LevelError : Level := 8%Z.

(** Parsing and printing a [slog.Level] is the work of the standard
    library (log/slog, level.go), which logger/logger.go calls; the
    definitions below follow it.

    The level of a name, the [switch] of [Level.parse]. *)
Definition Level_named (upper : string) : option Level :=
  if String.eqb upper "DEBUG" then Some LevelDebug
  else if String.eqb upper "INFO" then Some LevelInfo
  else if String.eqb upper "WARN" then Some LevelWarn
  else if String.eqb upper "ERROR" then Some LevelError
  else None.

(** [Level.parse] of the standard library: a name, in any case, that may be
    followed by a signed offset; the error is wrapped with the text. *)
Definition Level_parse `{Platform} (s : string) : Level + GoError :=
  let wrapped (err : GoError) :=
    errors_New ("slog: level string " ++ strconv_Quote s ++ ": " ++ Error err) in
  let '(name, offset) :=
    match strings_IndexAny s "+-" with
    | Some i => (slice_to s i, strconv_Atoi (slice_from s i))
    | None => (s, inl 0%Z)
    end in
  match offset with
  | inr err => inr (wrapped err)
  | inl offset =>
      match Level_named (strings_ToUpper name) with
      | Some l => inl (wrap64 (l + offset))
      | None => inr (wrapped (errors_New "unknown name"))
      end
  end.

(** [Level.UnmarshalText] on a receiver holding [l]: the receiver's new
    value and the error. *)
Definition Level_UnmarshalText `{Platform} (l : Level) (data : string) : Level * error :=
  match Level_parse data with
  | inl parsed => (parsed, None)
  | inr err => (l, Some err)
  end.


(** [slog.Record], one line of the JSON handler's output: the keys [time],
    [level] and [msg], then the attributes in the order they were given. *)
Record record : Type := NewRecord {
  rTime : Z;
  rLevel : Level;
  rMessage : string;
  rAttrs : list Attr
}.

(** A call of a logger method, as the caller made it. *)
Record logcall : Type := LogCall {
  call_level : Level;
  call_msg : string;
  call_args : list GoAny
}.

Definition call_attrs (c : logcall) : list Attr := argsToAttrSlice (call_args c).

Definition has_key (key : string) (attrs : list Attr) : bool :=
  existsb (fun a => String.eqb key (Key a)) attrs.

(** The value under a path of keys, groups being nested. *)
Fixpoint lookup_key (key : string) (attrs : list Attr) : option Value :=
  match attrs with
  | [] => None
  | mkAttr k v :: rest => if String.eqb key k then Some v else lookup_key key rest
  end.

Definition lookup_in (key : string) (v : option Value) : option Value :=
  match v with
  | Some (GroupValue attrs) => lookup_key key attrs
  | _ => None
  end.

Definition lookup_path (path : list string) (attrs : list Attr) : option Value :=
  fold_left (fun v key => lookup_in key v) path (Some (GroupValue attrs)).

End slog.

(** ** The world and the monad of Go computations *)
Module World.
Section World.
(** [C] is the type of the calls a middleware can make to the service it
    wraps. *)
Context {C : Type}.

Inductive event : Type :=
| Invoke (c : C)
| Log (c : slog.logcall).

Record world : Type := mkWorld {
  clock : nat -> Z;          (* the successive readings of [time.Now()] *)
  reads : nat;               (* how many readings were taken *)
  trace : list event;        (* calls to the service and to the logger *)
  sink : list slog.record    (* the lines written to the [io.Writer] *)
}.

Definition Go (A : Type) : Type := world -> outcome A * world.

Definition ret {A} (a : A) : Go A := fun w => (Returned a, w).

Definition bind {A B} (m : Go A) (k : A -> Go B) : Go B :=
  fun w => match m w with
           | (Returned a, w') => k a w'
           | (Panicked r, w') => (Panicked r, w')
           end.

Definition panic {A} (reason : string) : Go A := fun w => (Panicked reason, w).

Definition time_Now : Go Z :=
  fun w => (Returned (clock w (reads w)),
            mkWorld (clock w) (S (reads w)) (trace w) (sink w)).

(** [time.Since(begin)], in nanoseconds. *)
Definition time_Since (begin : Z) : Go Z :=
  fun w => (Returned (clock w (reads w) - begin)%Z,
            mkWorld (clock w) (S (reads w)) (trace w) (sink w)).

Definition emit (e : event) : Go unit :=
  fun w => (Returned tt, mkWorld (clock w) (reads w) (trace w ++ [e]) (sink w)).

Definition write (r : slog.record) : Go unit :=
  fun w => (Returned tt, mkWorld (clock w) (reads w) (trace w) (sink w ++ [r])).

(** The calls to the wrapped service and to the logger in a trace. *)
Fixpoint invocations (t : list event) : list C :=
  match t with
  | [] => []
  | Invoke c :: rest => c :: invocations rest
  | Log _ :: rest => invocations rest
  end.

Fixpoint logcalls (t : list event) : list slog.logcall :=
  match t with
  | [] => []
  | Invoke _ :: rest => logcalls rest
  | Log c :: rest => c :: logcalls rest
  end.

(** [defer deferred body]: a function with named results [r] that registers
    the closure [deferred] and then returns what [body] yields.  The closure
    runs once the results are set and reads them; if it panics, so does the
    function.  (In the sources [body] is one call of the wrapped service,
    which returns in this model.) *)
Definition defer {R} (deferred : R -> Go unit) (body : Go R) : Go R :=
  bind body (fun r => bind (deferred r) (fun _ => ret r)).

(** Dereferencing a pointer; [None] is [nil]. *)
Definition deref {T} (p : option T) : Go T :=
  match p with
  | Some v => ret v
  | None => panic "runtime error: invalid memory address or nil pointer dereference"
  end.

Definition initial (clk : nat -> Z) : world := mkWorld clk 0 [] [].

(** The world once a middleware has read the clock, called the wrapped
    service and read the clock again, and the duration it then computes. *)
Definition called (w : world) (c : C) : world :=
  mkWorld (clock w) (S (S (reads w))) (trace w ++ [Invoke c]) (sink w).

Definition elapsed (w : world) : Z := (clock w (S (reads w)) - clock w (reads w))%Z.
End World.
Arguments event : clear implicits.
Arguments world : clear implicits.
Arguments Go : clear implicits.
End World.
Import World.

Declare Scope go_scope.
Delimit Scope go_scope with go.
Notation "x <- m ;; k" := (bind m (fun x => k))
  (at level 61, m at next level, right associativity) : go_scope.
Notation "' p <- m ;; k" := (bind m (fun x => match x with p => k end))
  (at level 61, p pattern, m at next level, right associativity) : go_scope.
Notation "m ;;; k" := (bind m (fun _ => k))
  (at level 61, right associativity) : go_scope.
#[local] Open Scope go_scope.

(** ** [*slog.Logger] over a JSON handler *)
Module Logger.
Section Logger.
Context {C : Type}.

(** [slog.New(slog.NewJSONHandler(w, &slog.HandlerOptions{Level: l}))]:
    the writer is the world's sink, [HandlerLevel] is [l]. *)
Record Logger : Type := NewJSONLogger { HandlerLevel : slog.Level }.

(** [Logger.log]: nothing happens below the handler's level; otherwise a
    record stamped with [time.Now()] is handed to the handler, which
    writes it as one line.  The call itself goes to the trace. *)
Definition log (l : Logger) (level : slog.Level) (msg : string)
           (args : list slog.GoAny) : Go C unit :=
  emit (Log (slog.LogCall level msg args)) ;;;
  if (HandlerLevel l <=? level)%Z
  then now <- time_Now ;;
       write (slog.NewRecord now level msg (slog.argsToAttrSlice args))
  else ret tt.

(** [Logger.Log(ctx, level, msg, args...)]. *)
Definition Log_ (l : Logger) (ctx : Context) (level : slog.Level) (msg : string)
           (args : list slog.GoAny) : Go C unit :=
  log l level msg args.

Definition Debug (l : Logger) (msg : string) (args : list slog.GoAny) : Go C unit :=
  log l slog.LevelDebug msg args.
Definition Info (l : Logger) (msg : string) (args : list slog.GoAny) : Go C unit :=
  log l slog.LevelInfo msg args.
Definition Warn (l : Logger) (msg : string) (args : list slog.GoAny) : Go C unit :=
  log l slog.LevelWarn msg args.
Definition Error (l : Logger) (msg : string) (args : list slog.GoAny) : Go C unit :=
  log l slog.LevelError msg args.

(** The world after a call of [log]. *)
Definition logged (l : Logger) (c : slog.logcall) (w : world C) : world C :=
  let enabled := (HandlerLevel l <=? slog.call_level c)%Z in
  mkWorld (clock w)
          (if enabled then S (reads w) else reads w)
          (trace w ++ [Log c])
          (if enabled
           then sink w ++ [slog.NewRecord (clock w (reads w)) (slog.call_level c)
                                          (slog.call_msg c) (slog.call_attrs c)]
           else sink w).

(** The four severity methods. *)
Inductive Method : Type := MDebug | MInfo | MWarn | MError.

Definition method_level (m : Method) : slog.Level :=
  match m with
  | MDebug => slog.LevelDebug
  | MInfo => slog.LevelInfo
  | MWarn => slog.LevelWarn
  | MError => slog.LevelError
  end.

Definition call (l : Logger) (m : Method) : string -> list slog.GoAny -> Go C unit :=
  match m with
  | MDebug => Debug l
  | MInfo => Info l
  | MWarn => Warn l
  | MError => Error l
  end.
End Logger.
Arguments Logger : clear implicits.
End Logger.

(** ** Levels of the repository's logger *)
Module Level.

(** Modelled from the spec: the type [Level] of logger/level.go, which is
    not among the sources: one of Debug, Info, Warn, Error. *)
Inductive Level : Type := Debug | Info | Warn | Error.

(** Modelled from the spec: the rank of a level in the fixed order
    Debug(0) < Info(1) < Warn(2) < Error(3); logger/level.go is missing. *)
Definition rank (l : Level) : nat :=
  match l with Debug => 0 | Info => 1 | Warn => 2 | Error => 3 end.

(** Modelled from the spec: [isAllowed] of logger/level.go (missing), the
    spec's [isAtLeast]: true iff the rank of the candidate is at least the
    rank of the threshold. *)
Definition isAllowed (lvl threshold : Level) : bool :=
  Nat.leb (rank threshold) (rank lvl).

(** Modelled from the spec: [String] of logger/level.go (missing), the
    spec's [toText]: the canonical lowercase form. *)
Definition String_ (l : Level) : string :=
  match l with
  | Debug => "debug" | Info => "info" | Warn => "warn" | Error => "error"
  end.

(** Modelled from the spec: the spec's [parse], the decision of
    [UnmarshalText] in logger/level.go (missing): a case-insensitive match
    against the four level texts; any other text fails. *)
Definition parse (text : string) : option Level :=
  let t := strings_ToLower text in
  if String.eqb t "debug" then Some Debug
  else if String.eqb t "info" then Some Info
  else if String.eqb t "warn" then Some Warn
  else if String.eqb t "error" then Some Error
  else None.

(** Modelled from the spec: [UnmarshalText] of logger/level.go (missing) on
    a receiver holding [lvl]: the receiver's new value and the error. *)
Definition UnmarshalText `{Platform} (lvl : Level) (text : string) : Level * error :=
  match parse text with
  | Some l => (l, None)
  | None => (lvl, Some ErrInvalidLogLevel)
  end.

End Level.

(** ** logger/slogger.go: the logger with its own level *)
Module slogger.
Section slogger.
Context {C : Type} `{Platform}.

Record logger : Type := mkLogger {
  sLogger : Logger.Logger;
  level : Level.Level
}.

(** The format of the error of [New]. *)
Definition New_format : string :=
  "{" ++ quoted "level" ++ ":" ++ quoted "error" ++ ","
      ++ quoted "message" ++ ":" ++ quoted "%s: %s" ++ ","
      ++ quoted "ts" ++ ":" ++ quoted "%s" ++ "}".

(** [New(w, levelText)]; [w] is the world's sink. *)
Definition New (levelText : string) : Go C (option logger * error) :=
  let '(level, err) := Level.UnmarshalText Level.Debug levelText in
  match err with
  | Some e =>
      ret (None, Some (fmt_Errorf New_format [Error e; levelText; time_RFC3339Nano]))
  | None =>
      let logHandler := Logger.NewJSONLogger slog.LevelDebug in
      ret (Some (mkLogger logHandler level), None)
  end.

Definition Debug (l : logger) (ctx : Context) (msg : string) : Go C unit :=
  if Level.isAllowed Level.Debug (level l)
  then Logger.Log_ (sLogger l) ctx slog.LevelDebug "msg" [slog.AnyString msg]
  else ret tt.

Definition Info (l : logger) (ctx : Context) (msg : string) : Go C unit :=
  if Level.isAllowed Level.Info (level l)
  then Logger.Log_ (sLogger l) ctx slog.LevelInfo msg []
  else ret tt.

Definition Warn (l : logger) (ctx : Context) (msg : string) : Go C unit :=
  if Level.isAllowed Level.Warn (level l)
  then Logger.Log_ (sLogger l) ctx slog.LevelWarn msg []
  else ret tt.

Definition Error (l : logger) (ctx : Context) (msg : string) : Go C unit :=
  if Level.isAllowed Level.Error (level l)
  then Logger.Log_ (sLogger l) ctx slog.LevelError msg []
  else ret tt.

(** The operation of the interface [Logger] for a level. *)
Definition operation (op : Level.Level) : logger -> Context -> string -> Go C unit :=
  match op with
  | Level.Debug => Debug
  | Level.Info => Info
  | Level.Warn => Warn
  | Level.Error => Error
  end.

End slogger.
Arguments logger : clear implicits.
End slogger.

(** ** logger/logger.go: the constructor of a [*slog.Logger] *)
Module logger.
Section logger.
Context {C : Type} `{Platform}.

(** What a [*slog.Logger] points to: the zero [slog.Logger{}], which has
    no handler, or the logger that [slog.New] builds over a handler. *)
Inductive slog_Logger : Type :=
| zero
| built (l : Logger.Logger).

(** [New(w, levelText)]; [w] is the world's sink.  The pointer returned is
    never nil: on failure it is [&slog.Logger{}]. *)
Definition New (levelText : string) : Go C (option slog_Logger * error) :=
  let '(level, err) := slog.Level_UnmarshalText 0%Z levelText in
  match err with
  | Some e =>
      ret (Some zero,
           Some (fmt_Errorf slogger.New_format [Error e; levelText; time_RFC3339Nano]))
  | None =>
      let logHandler := Logger.NewJSONLogger level in
      ret (Some (built logHandler), None)
  end.

(** A severity method called through the pointer: without a handler the
    call dereferences nil. *)
Definition call (p : option slog_Logger) (m : Logger.Method) (msg : string)
  (args : list slog.GoAny) : Go C unit :=
  match p with
  | Some (built l) => Logger.call l m msg args
  | Some zero | None => panic "runtime error: invalid memory address or nil pointer dereference"
  end.

End logger.
End logger.

(** ** What the specification expects a middleware to record *)
Module Contract.

(** Severity by error presence. *)
Definition level_of (err : error) : slog.Level :=
  match err with
  | Some _ => slog.LevelWarn
  | None => slog.LevelInfo
  end.

(** The two messages of an operation. *)
Definition message_of (operation : string) (err : error) : string :=
  match err with
  | Some _ => operation ++ " failed to complete successfully"
  | None => operation ++ " completed successfully"
  end.

Definition failed (err : error) : bool :=
  match err with Some _ => true | None => false end.

(** The last field of a record. *)
Definition last_attr (attrs : list slog.Attr) : option slog.Attr :=
  match rev attrs with
  | a :: _ => Some a
  | [] => None
  end.

(** The fixed shape of the diagnostic of a logger constructor: the keys
    [level], [message] and [ts]. *)
Definition diagnostic (parse_error text ts : string) : string :=
  "{" ++ quoted "level" ++ ":" ++ quoted "error" ++ ","
      ++ quoted "message" ++ ":" ++ quoted (parse_error ++ ": " ++ text) ++ ","
      ++ quoted "ts" ++ ":" ++ quoted ts ++ "}".

(** The contract of an instrumented call [m] started in the world [w], for
    the call [c] of the wrapped service that returns [r] with the error
    [err]: the service is called once, with [c]; one record goes to the
    logger, Warn-level with a field [error] when [err] is not nil and
    Info-level without one otherwise, always with the field [duration]; and
    [r] is returned. *)
Definition observes {C R : Type} (m : Go C R) (w : world C) (c : C) (r : R)
  (err : error) : Prop :=
  exists lc,
    fst (m w) = Returned r
    /\ invocations (trace (snd (m w))) = (invocations (trace w) ++ [c])%list
    /\ logcalls (trace (snd (m w))) = (logcalls (trace w) ++ [lc])%list
    /\ slog.call_level lc = level_of err
    /\ slog.has_key "duration" (slog.call_attrs lc) = true
    /\ slog.has_key "error" (slog.call_attrs lc) = failed err.



(** [ends_with s suffix]: [s] ends with [suffix]. *)
Fixpoint ends_with (s suffix : string) : bool :=
  String.eqb s suffix ||
  match s with
  | EmptyString => false
  | String _ rest => ends_with rest suffix
  end.

End Contract.

(** ** The logging middleware of the users service *)
Module Users.

(** The types of [pkg/clients] and the token message, which are not among
    the sources: the fields the middleware reads, and one field for a type
    it only passes on. *)
Record Role : Type := mkRole { Role_String : string }.

Record Client : Type := mkClient {
  Name : string;
  ID : string;
  Tags : list string;
  Metadata : list (string * string);
  Role_ : Role
}.

Record Page : Type := mkPage { Limit : N; Offset : N }.
Record ClientsPage : Type := mkClientsPage { Clients : list Client }.
Record MembersPage : Type := mkMembersPage { Members : list Client }.
Record Token : Type := mkToken { AccessType : string }.

(** The operations of [users.Service], their arguments and results. *)
Inductive Op : Type :=
| opRegisterClient | opIssueToken | opRefreshToken | opViewClient
| opViewProfile | opListClients | opUpdateClient | opUpdateClientTags
| opUpdateClientIdentity | opUpdateClientSecret | opGenerateResetToken
| opResetSecret | opSendPasswordReset | opUpdateClientRole | opEnableClient
| opDisableClient | opListMembers | opIdentify.

Definition Args (op : Op) : Type :=
  match op with
  | opRegisterClient => Context * string * Client
  | opIssueToken => Context * string * string * string
  | opRefreshToken => Context * string * string
  | opViewClient => Context * string * string
  | opViewProfile => Context * string
  | opListClients => Context * string * Page
  | opUpdateClient => Context * string * Client
  | opUpdateClientTags => Context * string * Client
  | opUpdateClientIdentity => Context * string * string * string
  | opUpdateClientSecret => Context * string * string * string
  | opGenerateResetToken => Context * string * string
  | opResetSecret => Context * string * string
  | opSendPasswordReset => Context * string * string * string * string
  | opUpdateClientRole => Context * string * Client
  | opEnableClient => Context * string * string
  | opDisableClient => Context * string * string
  | opListMembers => Context * string * string * string * Page
  | opIdentify => Context * string
  end%type.

Definition Res (op : Op) : Type :=
  match op with
  | opIssueToken | opRefreshToken => option Token * error
  | opListClients => ClientsPage * error
  | opGenerateResetToken | opResetSecret | opSendPasswordReset => error
  | opListMembers => MembersPage * error
  | opIdentify => string * error
  | _ => Client * error
  end%type.

(** The error in the results of an operation. *)
Definition err_of (op : Op) : Res op -> error :=
  match op with
  | opGenerateResetToken | opResetSecret | opSendPasswordReset => fun r => r
  | _ => fun r => snd r
  end.

(** [users.Service]: what each operation returns on its arguments. *)
Definition Service : Type := forall op : Op, Args op -> Res op.

(** A call of an operation of the wrapped service. *)
Definition Call : Type := { op : Op & Args op }.

(** The name of an operation in its two messages. *)
Definition name (op : Op) : string :=
  match op with
  | opRegisterClient => "Register client"
  | opIssueToken => "Issue token"
  | opRefreshToken => "Refresh token"
  | opViewClient => "View client"
  | opViewProfile => "View profile"
  | opListClients => "List clients"
  | opUpdateClient => "Update client"
  | opUpdateClientTags => "Update client tags"
  | opUpdateClientIdentity => "Update client identity"
  | opUpdateClientSecret => "Update client secret"
  | opGenerateResetToken => "Generate reset token"
  | opResetSecret => "Reset secret"
  | opSendPasswordReset => "Send password reset"
  | opUpdateClientRole => "Update client role"
  | opEnableClient => "Enable client"
  | opDisableClient => "Disable client"
  | opListMembers => "List members"
  | opIdentify => "Identify"
  end.

(** The token a token operation returned, when it is not [nil]. *)
Definition token_of (op : Op) : Res op -> option Token :=
  match op with
  | opIssueToken | opRefreshToken => fun r => fst r
  | _ => fun _ => None
  end.

(** The token operations return a pointer; [nil_result] tells whether it
    is [nil]. *)
Definition nil_result (op : Op) : Res op -> bool :=
  match op with
  | opIssueToken | opRefreshToken =>
      fun r => match fst r with Some _ => false | None => true end
  | _ => fun _ => false
  end.

(** The fields of the record of an operation that are drawn from a result
    of type [Client]: their path in the record and their value. *)
Definition client_fields (op : Op) (c : Client) : list (list string * slog.Value) :=
  match op with
  | opRegisterClient | opViewProfile | opUpdateClientSecret =>
      [(["user"; "name"], slog.StringValue (Name c));
       (["user"; "id"], slog.StringValue (ID c))]
  | opViewClient => [(["user"; "name"], slog.StringValue (Name c))]
  | opUpdateClient =>
      [(["user"; "name"], slog.StringValue (Name c));
       (["user"; "id"], slog.StringValue (ID c));
       (["metadata"], slog.KindAny (slog.AnyMap (Metadata c)))]
  | opUpdateClientTags =>
      [(["user"; "id"], slog.StringValue (ID c));
       (["user"; "tags"], slog.StringValue (fmt_Sprintf_v (Tags c)))]
  | opUpdateClientIdentity | opUpdateClientRole =>
      [(["user"; "id"], slog.StringValue (ID c))]
  | opEnableClient | opDisableClient => [(["id"], slog.StringValue (ID c))]
  | _ => []
  end.

(** The result-drawn fields of an operation on its results; the token
    operations are apart, see [IssueToken]. *)
Definition result_fields (op : Op) : Res op -> list (list string * slog.Value) :=
  match op with
  | opRegisterClient => fun r => client_fields opRegisterClient (fst r)
  | opViewClient => fun r => client_fields opViewClient (fst r)
  | opViewProfile => fun r => client_fields opViewProfile (fst r)
  | opUpdateClient => fun r => client_fields opUpdateClient (fst r)
  | opUpdateClientTags => fun r => client_fields opUpdateClientTags (fst r)
  | opUpdateClientIdentity => fun r => client_fields opUpdateClientIdentity (fst r)
  | opUpdateClientSecret => fun r => client_fields opUpdateClientSecret (fst r)
  | opUpdateClientRole => fun r => client_fields opUpdateClientRole (fst r)
  | opEnableClient => fun r => client_fields opEnableClient (fst r)
  | opDisableClient => fun r => client_fields opDisableClient (fst r)
  | _ => fun _ => []
  end.

(** Zero values, and the service every operation of which fails with [e],
    returning the zero value of its result type. *)
Definition zeroClient : Client := mkClient EmptyString EmptyString [] [] (mkRole EmptyString).

Definition fails (e : GoError) : Service :=
  fun op =>
    match op return Args op -> Res op with
    | opIssueToken | opRefreshToken => fun _ => (None, Some e)
    | opListClients => fun _ => (mkClientsPage [], Some e)
    | opGenerateResetToken | opResetSecret | opSendPasswordReset => fun _ => Some e
    | opListMembers => fun _ => (mkMembersPage [], Some e)
    | opIdentify => fun _ => (EmptyString, Some e)
    | _ => fun _ => (zeroClient, Some e)
    end.

(** The service whose token operations fail with [e] and an allocated,
    empty token. *)
Definition fails_with_token (e : GoError) : Service :=
  fun op =>
    match op return Args op -> Res op with
    | opIssueToken | opRefreshToken => fun _ => (Some (mkToken EmptyString), Some e)
    | other => fails e other
    end.

Section Middleware.
Context `{Platform}.

Record loggingMiddleware : Type := mkLoggingMiddleware {
  logger : Logger.Logger;
  svc : Service
}.

Definition LoggingMiddleware (svc : Service) (logger : Logger.Logger) : loggingMiddleware :=
  mkLoggingMiddleware logger svc.

(** [lm.svc.<op>(args)]. *)
Definition invoke (s : Service) (op : Op) (a : Args op) : Go Call (Res op) :=
  emit (Invoke (existT Args op a)) ;;; ret (s op a).

Definition RegisterClient (lm : loggingMiddleware) (ctx : Context) (token : string)
  (client : Client) : Go Call (Client * error) :=
  begin <- time_Now ;;
  defer (fun '(c, err) =>
    d <- time_Since begin ;;
    let args := [slog.String_ "duration" (Duration_String d);
                 slog.Group "user" [slog.String_ "name" (Name c); slog.String_ "id" (ID c)]] in
    match err with
    | Some e => Logger.Warn (logger lm) "Register client failed to complete successfully"
                  (append args [slog.Any "error" (slog.AnyError e)])
    | None => Logger.Info (logger lm) "Register client completed successfully" args
    end)
  (invoke (svc lm) opRegisterClient (ctx, token, client)).

Definition IssueToken (lm : loggingMiddleware) (ctx : Context)
  (identity secret domainID : string) : Go Call (option Token * error) :=
  begin <- time_Now ;;
  defer (fun '(t, err) =>
    d <- time_Since begin ;;
    let args := [slog.String_ "duration" (Duration_String d);
                 slog.String_ "domain_id" domainID] in
    tok <- deref t ;;
    let args := if negb (String.eqb (AccessType tok) EmptyString)
                then append args [slog.AnyString "access_type"; slog.AnyString (AccessType tok)]
                else args in
    match err with
    | Some e => Logger.Warn (logger lm) "Issue token failed to complete successfully"
                  (append args [slog.Any "error" (slog.AnyError e)])
    | None => Logger.Info (logger lm) "Issue token completed successfully" args
    end)
  (invoke (svc lm) opIssueToken (ctx, identity, secret, domainID)).

Definition RefreshToken (lm : loggingMiddleware) (ctx : Context)
  (refreshToken domainID : string) : Go Call (option Token * error) :=
  begin <- time_Now ;;
  defer (fun '(t, err) =>
    d <- time_Since begin ;;
    let args := [slog.String_ "duration" (Duration_String d);
                 slog.String_ "domain_id" domainID] in
    tok <- deref t ;;
    let args := if negb (String.eqb (AccessType tok) EmptyString)
                then append args [slog.AnyString "access_type"; slog.AnyString (AccessType tok)]
                else args in
    match err with
    | Some e => Logger.Warn (logger lm) "Refresh token failed to complete successfully"
                  (append args [slog.Any "error" (slog.AnyError e)])
    | None => Logger.Info (logger lm) "Refresh token completed successfully" args
    end)
  (invoke (svc lm) opRefreshToken (ctx, refreshToken, domainID)).

Definition ViewClient (lm : loggingMiddleware) (ctx : Context) (token id : string)
  : Go Call (Client * error) :=
  begin <- time_Now ;;
  defer (fun '(c, err) =>
    d <- time_Since begin ;;
    let args := [slog.String_ "duration" (Duration_String d);
                 slog.Group "user" [slog.String_ "name" (Name c); slog.String_ "id" id]] in
    match err with
    | Some e => Logger.Warn (logger lm) "View client failed to complete successfully"
                  (append args [slog.Any "error" (slog.AnyError e)])
    | None => Logger.Info (logger lm) "View client completed successfully" args
    end)
  (invoke (svc lm) opViewClient (ctx, token, id)).

Definition ViewProfile (lm : loggingMiddleware) (ctx : Context) (token : string)
  : Go Call (Client * error) :=
  begin <- time_Now ;;
  defer (fun '(c, err) =>
    d <- time_Since begin ;;
    let args := [slog.String_ "duration" (Duration_String d);
                 slog.Group "user" [slog.String_ "name" (Name c); slog.String_ "id" (ID c)]] in
    match err with
    | Some e => Logger.Warn (logger lm) "View profile failed to complete successfully"
                  (append args [slog.Any "error" (slog.AnyError e)])
    | None => Logger.Info (logger lm) "View profile completed successfully" args
    end)
  (invoke (svc lm) opViewProfile (ctx, token)).

Definition ListClients (lm : loggingMiddleware) (ctx : Context) (token : string) (pm : Page)
  : Go Call (ClientsPage * error) :=
  begin <- time_Now ;;
  defer (fun '(cp, err) =>
    d <- time_Since begin ;;
    let args := [slog.String_ "duration" (Duration_String d);
                 slog.Group "page"
                   [slog.Any "limit" (slog.AnyUint64 (Limit pm));
                    slog.Any "offset" (slog.AnyUint64 (Offset pm))]] in
    match err with
    | Some e => Logger.Warn (logger lm) "List clients failed to complete successfully"
                  (append args [slog.Any "error" (slog.AnyError e)])
    | None => Logger.Info (logger lm) "List clients completed successfully" args
    end)
  (invoke (svc lm) opListClients (ctx, token, pm)).

Definition UpdateClient (lm : loggingMiddleware) (ctx : Context) (token : string)
  (client : Client) : Go Call (Client * error) :=
  begin <- time_Now ;;
  defer (fun '(c, err) =>
    d <- time_Since begin ;;
    let args := [slog.String_ "duration" (Duration_String d);
                 slog.Group "user" [slog.String_ "name" (Name c); slog.String_ "id" (ID c)];
                 slog.Any "metadata" (slog.AnyMap (Metadata c))] in
    match err with
    | Some e => Logger.Warn (logger lm) "Update client failed to complete successfully"
                  (append args [slog.Any "error" (slog.AnyError e)])
    | None => Logger.Info (logger lm) "Update client completed successfully" args
    end)
  (invoke (svc lm) opUpdateClient (ctx, token, client)).

Definition UpdateClientTags (lm : loggingMiddleware) (ctx : Context) (token : string)
  (client : Client) : Go Call (Client * error) :=
  begin <- time_Now ;;
  defer (fun '(c, err) =>
    d <- time_Since begin ;;
    let args := [slog.String_ "duration" (Duration_String d);
                 slog.Group "user" [slog.String_ "id" (ID c);
                                    slog.String_ "tags" (fmt_Sprintf_v (Tags c))]] in
    match err with
    | Some e => Logger.Warn (logger lm) "Update client tags failed to complete successfully"
                  (append args [slog.Any "error" (slog.AnyError e)])
    | None => Logger.Info (logger lm) "Update client tags completed successfully" args
    end)
  (invoke (svc lm) opUpdateClientTags (ctx, token, client)).

Definition UpdateClientIdentity (lm : loggingMiddleware) (ctx : Context)
  (token id identity : string) : Go Call (Client * error) :=
  begin <- time_Now ;;
  defer (fun '(c, err) =>
    d <- time_Since begin ;;
    let args := [slog.String_ "duration" (Duration_String d);
                 slog.Group "user" [slog.String_ "id" (ID c);
                                    slog.String_ "identity" identity]] in
    match err with
    | Some e => Logger.Warn (logger lm) "Update client identity failed to complete successfully"
                  (append args [slog.Any "error" (slog.AnyError e)])
    | None => Logger.Info (logger lm) "Update client identity completed successfully" args
    end)
  (invoke (svc lm) opUpdateClientIdentity (ctx, token, id, identity)).

Definition UpdateClientSecret (lm : loggingMiddleware) (ctx : Context)
  (token oldSecret newSecret : string) : Go Call (Client * error) :=
  begin <- time_Now ;;
  defer (fun '(c, err) =>
    d <- time_Since begin ;;
    let args := [slog.String_ "duration" (Duration_String d);
                 slog.Group "user" [slog.String_ "id" (ID c); slog.String_ "name" (Name c)]] in
    match err with
    | Some e => Logger.Warn (logger lm) "Update client secret failed to complete successfully"
                  (append args [slog.Any "error" (slog.AnyError e)])
    | None => Logger.Info (logger lm) "Update client secret completed successfully" args
    end)
  (invoke (svc lm) opUpdateClientSecret (ctx, token, oldSecret, newSecret)).

Definition GenerateResetToken (lm : loggingMiddleware) (ctx : Context) (email host : string)
  : Go Call error :=
  begin <- time_Now ;;
  defer (fun err =>
    d <- time_Since begin ;;
    let args := [slog.String_ "duration" (Duration_String d)] in
    match err with
    | Some e => Logger.Warn (logger lm) "Generate reset token failed to complete successfully"
                  (append args [slog.Any "error" (slog.AnyError e)])
    | None => Logger.Info (logger lm) "Generate reset token completed successfully" args
    end)
  (invoke (svc lm) opGenerateResetToken (ctx, email, host)).

Definition ResetSecret (lm : loggingMiddleware) (ctx : Context) (token secret : string)
  : Go Call error :=
  begin <- time_Now ;;
  defer (fun err =>
    d <- time_Since begin ;;
    let args := [slog.String_ "duration" (Duration_String d)] in
    match err with
    | Some e => Logger.Warn (logger lm) "Reset secret failed to complete successfully"
                  (append args [slog.Any "error" (slog.AnyError e)])
    | None => Logger.Info (logger lm) "Reset secret completed successfully" args
    end)
  (invoke (svc lm) opResetSecret (ctx, token, secret)).

Definition SendPasswordReset (lm : loggingMiddleware) (ctx : Context)
  (host email user token : string) : Go Call error :=
  begin <- time_Now ;;
  defer (fun err =>
    d <- time_Since begin ;;
    let args := [slog.String_ "duration" (Duration_String d)] in
    match err with
    | Some e => Logger.Warn (logger lm) "Send password reset failed to complete successfully"
                  (append args [slog.Any "error" (slog.AnyError e)])
    | None => Logger.Info (logger lm) "Send password reset completed successfully" args
    end)
  (invoke (svc lm) opSendPasswordReset (ctx, host, email, user, token)).

Definition UpdateClientRole (lm : loggingMiddleware) (ctx : Context) (token : string)
  (client : Client) : Go Call (Client * error) :=
  begin <- time_Now ;;
  defer (fun '(c, err) =>
    d <- time_Since begin ;;
    let args := [slog.String_ "duration" (Duration_String d);
                 slog.Group "user" [slog.String_ "id" (ID c);
                                    slog.String_ "role" (Role_String (Role_ client))]] in
    match err with
    | Some e => Logger.Warn (logger lm) "Update client role failed to complete successfully"
                  (append args [slog.Any "error" (slog.AnyError e)])
    | None => Logger.Info (logger lm) "Update client role completed successfully" args
    end)
  (invoke (svc lm) opUpdateClientRole (ctx, token, client)).

Definition EnableClient (lm : loggingMiddleware) (ctx : Context) (token id : string)
  : Go Call (Client * error) :=
  begin <- time_Now ;;
  defer (fun '(c, err) =>
    d <- time_Since begin ;;
    let args := [slog.String_ "duration" (Duration_String d);
                 slog.String_ "id" (ID c)] in
    match err with
    | Some e => Logger.Warn (logger lm) "Enable client failed to complete successfully"
                  (append args [slog.Any "error" (slog.AnyError e)])
    | None => Logger.Info (logger lm) "Enable client completed successfully" args
    end)
  (invoke (svc lm) opEnableClient (ctx, token, id)).

Definition DisableClient (lm : loggingMiddleware) (ctx : Context) (token id : string)
  : Go Call (Client * error) :=
  begin <- time_Now ;;
  defer (fun '(c, err) =>
    d <- time_Since begin ;;
    let args := [slog.String_ "duration" (Duration_String d);
                 slog.String_ "id" (ID c)] in
    match err with
    | Some e => Logger.Warn (logger lm) "Disable client failed to complete successfully"
                  (append args [slog.Any "error" (slog.AnyError e)])
    | None => Logger.Info (logger lm) "Disable client completed successfully" args
    end)
  (invoke (svc lm) opDisableClient (ctx, token, id)).

Definition ListMembers (lm : loggingMiddleware) (ctx : Context)
  (token objectKind objectID : string) (cp : Page) : Go Call (MembersPage * error) :=
  begin <- time_Now ;;
  defer (fun '(mp, err) =>
    d <- time_Since begin ;;
    let args := [slog.String_ "duration" (Duration_String d);
                 slog.String_ "object_kind" objectKind;
                 slog.String_ "object_id" objectID;
                 slog.Group "page"
                   [slog.Any "limit" (slog.AnyUint64 (Limit cp));
                    slog.Any "offset" (slog.AnyUint64 (Offset cp))]] in
    match err with
    | Some e => Logger.Warn (logger lm) "List members failed to complete successfully"
                  (append args [slog.Any "error" (slog.AnyError e)])
    | None => Logger.Info (logger lm) "List members completed successfully" args
    end)
  (invoke (svc lm) opListMembers (ctx, token, objectKind, objectID, cp)).

Definition Identify (lm : loggingMiddleware) (ctx : Context) (token : string)
  : Go Call (string * error) :=
  begin <- time_Now ;;
  defer (fun '(id, err) =>
    d <- time_Since begin ;;
    let args := [slog.String_ "duration" (Duration_String d)] in
    match err with
    | Some e => Logger.Warn (logger lm) "Identify failed to complete successfully"
                  (append args [slog.Any "error" (slog.AnyError e)])
    | None => Logger.Info (logger lm) "Identify completed successfully" args
    end)
  (invoke (svc lm) opIdentify (ctx, token)).

(** The middleware as an implementation of [users.Service]. *)
Definition method (lm : loggingMiddleware) (op : Op) : Args op -> Go Call (Res op) :=
  match op with
  | opRegisterClient => fun '(ctx, token, client) => RegisterClient lm ctx token client
  | opIssueToken => fun '(ctx, ident, secret, domainID) => IssueToken lm ctx ident secret domainID
  | opRefreshToken => fun '(ctx, refreshToken, domainID) => RefreshToken lm ctx refreshToken domainID
  | opViewClient => fun '(ctx, token, id) => ViewClient lm ctx token id
  | opViewProfile => fun '(ctx, token) => ViewProfile lm ctx token
  | opListClients => fun '(ctx, token, pm) => ListClients lm ctx token pm
  | opUpdateClient => fun '(ctx, token, client) => UpdateClient lm ctx token client
  | opUpdateClientTags => fun '(ctx, token, client) => UpdateClientTags lm ctx token client
  | opUpdateClientIdentity => fun '(ctx, token, id, ident) => UpdateClientIdentity lm ctx token id ident
  | opUpdateClientSecret => fun '(ctx, token, o, n) => UpdateClientSecret lm ctx token o n
  | opGenerateResetToken => fun '(ctx, email, host) => GenerateResetToken lm ctx email host
  | opResetSecret => fun '(ctx, token, secret) => ResetSecret lm ctx token secret
  | opSendPasswordReset => fun '(ctx, host, email, user, token) => SendPasswordReset lm ctx host email user token
  | opUpdateClientRole => fun '(ctx, token, client) => UpdateClientRole lm ctx token client
  | opEnableClient => fun '(ctx, token, id) => EnableClient lm ctx token id
  | opDisableClient => fun '(ctx, token, id) => DisableClient lm ctx token id
  | opListMembers => fun '(ctx, token, k, i, cp) => ListMembers lm ctx token k i cp
  | opIdentify => fun '(ctx, token) => Identify lm ctx token
  end.

End Middleware.
End Users.

(** ** The logging middleware of the certs service *)
Module Certs.

(** The result types of [certs.Service], which are not among the sources;
    the middleware reads none of their fields. *)
Record Cert : Type := mkCert { Serial : string }.
Record Page : Type := mkPage { Total : N; Certs : list Cert }.
Record Revoke : Type := mkRevoke { RevocationTime : Z }.

Inductive Op : Type :=
| opIssueCert | opListCerts | opListSerials | opViewCert | opRevokeCert.

Definition Args (op : Op) : Type :=
  match op with
  | opIssueCert => Context * string * string * string
  | opListCerts => Context * string * string * N * N
  | opListSerials => Context * string * string * N * N
  | opViewCert => Context * string * string
  | opRevokeCert => Context * string * string
  end%type.

Definition Res (op : Op) : Type :=
  match op with
  | opIssueCert | opViewCert => Cert * error
  | opListCerts | opListSerials => Page * error
  | opRevokeCert => Revoke * error
  end%type.

Definition err_of (op : Op) : Res op -> error :=
  match op with
  | opIssueCert | opViewCert => fun r => snd r
  | opListCerts | opListSerials => fun r => snd r
  | opRevokeCert => fun r => snd r
  end.

(** [certs.Service]: what each operation returns on its arguments. *)
Definition Service : Type := forall op : Op, Args op -> Res op.

Definition Call : Type := { op : Op & Args op }.

(** The name of an operation in its two messages. *)
Definition name (op : Op) : string :=
  match op with
  | opIssueCert => "issue_cert"
  | opListCerts => "list_certs"
  | opListSerials => "list_serials"
  | opViewCert => "view_cert"
  | opRevokeCert => "revoke_cert"
  end.

(** The two messages of an operation of this middleware. *)
Definition message_of (op : Op) (err : error) : string :=
  match err with
  | Some _ => "Method " ++ name op ++ " completed with error."
  | None => "Method " ++ name op ++ " completed without errors."
  end.

(** The service every operation of which fails with [e]. *)
Definition fails (e : GoError) : Service :=
  fun op =>
    match op return Args op -> Res op with
    | opIssueCert | opViewCert => fun _ => (mkCert EmptyString, Some e)
    | opListCerts | opListSerials => fun _ => (mkPage 0 [], Some e)
    | opRevokeCert => fun _ => (mkRevoke 0, Some e)
    end.

Section Middleware.
Context `{Platform}.

Record loggingMiddleware : Type := mkLoggingMiddleware {
  logger : Logger.Logger;
  svc : Service
}.

Definition LoggingMiddleware (svc : Service) (logger : Logger.Logger) : loggingMiddleware :=
  mkLoggingMiddleware logger svc.

(** [lm.svc.<op>(args)]. *)
Definition invoke (s : Service) (op : Op) (a : Args op) : Go Call (Res op) :=
  emit (Invoke (existT Args op a)) ;;; ret (s op a).

Definition IssueCert (lm : loggingMiddleware) (ctx : Context) (token thingID ttl : string)
  : Go Call (Cert * error) :=
  begin <- time_Now ;;
  defer (fun '(c, err) =>
    let message := "Method issue_cert completed" in
    match err with
    | Some e =>
        d <- time_Since begin ;;
        Logger.Warn (logger lm) (fmt_Sprintf "%s with error." [message])
          [slog.String_ "error" (Error e);
           slog.String_ "duration" (Duration_String d)]
    | None =>
        d <- time_Since begin ;;
        Logger.Info (logger lm) (fmt_Sprintf "%s without errors." [message])
          [slog.String_ "thing_id" thingID;
           slog.String_ "token" token;
           slog.String_ "ttl" ttl;
           slog.String_ "duration" (Duration_String d)]
    end)
  (invoke (svc lm) opIssueCert (ctx, token, thingID, ttl)).

Definition ListCerts (lm : loggingMiddleware) (ctx : Context) (token thingID : string) (offset limit : N)
  : Go Call (Page * error) :=
  begin <- time_Now ;;
  defer (fun '(cp, err) =>
    let message := "Method list_certs completed" in
    match err with
    | Some e =>
        d <- time_Since begin ;;
        Logger.Warn (logger lm) (fmt_Sprintf "%s with error." [message])
          [slog.String_ "error" (Error e);
           slog.String_ "duration" (Duration_String d)]
    | None =>
        d <- time_Since begin ;;
        Logger.Info (logger lm) (fmt_Sprintf "%s without errors." [message])
          [slog.String_ "thing_id" thingID;
           slog.String_ "token" token;
           slog.Uint64 "offset" offset;
           slog.Uint64 "limit" limit;
           slog.String_ "duration" (Duration_String d)]
    end)
  (invoke (svc lm) opListCerts (ctx, token, thingID, offset, limit)).

Definition ListSerials (lm : loggingMiddleware) (ctx : Context) (token thingID : string) (offset limit : N)
  : Go Call (Page * error) :=
  begin <- time_Now ;;
  defer (fun '(cp, err) =>
    let message := "Method list_serials completed" in
    match err with
    | Some e =>
        d <- time_Since begin ;;
        Logger.Warn (logger lm) (fmt_Sprintf "%s with error." [message])
          [slog.String_ "error" (Error e);
           slog.String_ "duration" (Duration_String d)]
    | None =>
        d <- time_Since begin ;;
        Logger.Info (logger lm) (fmt_Sprintf "%s without errors." [message])
          [slog.String_ "token" token;
           slog.String_ "thing_id" thingID;
           slog.Uint64 "offset" offset;
           slog.Uint64 "limit" limit;
           slog.String_ "duration" (Duration_String d)]
    end)
  (invoke (svc lm) opListSerials (ctx, token, thingID, offset, limit)).

Definition ViewCert (lm : loggingMiddleware) (ctx : Context) (token serialID : string)
  : Go Call (Cert * error) :=
  begin <- time_Now ;;
  defer (fun '(c, err) =>
    let message := "Method view_cert completed" in
    match err with
    | Some e =>
        d <- time_Since begin ;;
        Logger.Warn (logger lm) (fmt_Sprintf "%s with error." [message])
          [slog.String_ "error" (Error e);
           slog.String_ "duration" (Duration_String d)]
    | None =>
        d <- time_Since begin ;;
        Logger.Info (logger lm) (fmt_Sprintf "%s without errors." [message])
          [slog.String_ "token" token;
           slog.String_ "serial_id" serialID;
           slog.String_ "duration" (Duration_String d)]
    end)
  (invoke (svc lm) opViewCert (ctx, token, serialID)).

Definition RevokeCert (lm : loggingMiddleware) (ctx : Context) (token thingID : string)
  : Go Call (Revoke * error) :=
  begin <- time_Now ;;
  defer (fun '(c, err) =>
    let message := "Method revoke_cert completed" in
    match err with
    | Some e =>
        d <- time_Since begin ;;
        Logger.Warn (logger lm) (fmt_Sprintf "%s with error." [message])
          [slog.String_ "error" (Error e);
           slog.String_ "duration" (Duration_String d)]
    | None =>
        d <- time_Since begin ;;
        Logger.Info (logger lm) (fmt_Sprintf "%s without errors." [message])
          [slog.String_ "token" token;
           slog.String_ "thing_id" thingID;
           slog.String_ "duration" (Duration_String d)]
    end)
  (invoke (svc lm) opRevokeCert (ctx, token, thingID)).

(** The middleware as an implementation of [certs.Service]. *)
Definition method (lm : loggingMiddleware) (op : Op) : Args op -> Go Call (Res op) :=
  match op with
  | opIssueCert => fun '(ctx, token, thingID, ttl) => IssueCert lm ctx token thingID ttl
  | opListCerts => fun '(ctx, token, thingID, offset, limit) => ListCerts lm ctx token thingID offset limit
  | opListSerials => fun '(ctx, token, thingID, offset, limit) => ListSerials lm ctx token thingID offset limit
  | opViewCert => fun '(ctx, token, serialID) => ViewCert lm ctx token serialID
  | opRevokeCert => fun '(ctx, token, thingID) => RevokeCert lm ctx token thingID
  end.

End Middleware.
End Certs.

(** ** The logging middleware of the bootstrap service *)
Module Bootstrap.

(** The types of package [bootstrap], which are not among the sources: the
    fields the middleware reads, and one field for a type it only passes
    on. *)
Record Config : Type := mkConfig { ThingID : string }.
Record Channel : Type := mkChannel {
  ID : string;
  Name : string;
  Metadata : list (string * string)
}.
Record Filter : Type := mkFilter { FullMatch : list (string * string) }.
Record ConfigsPage : Type := mkConfigsPage { Configs : list Config }.
(** [bootstrap.State], a named integer type. *)
Definition State : Type := Z.

Inductive Op : Type :=
| opAdd | opView | opUpdate | opUpdateCert | opUpdateConnections | opList
| opRemove | opBootstrap | opChangeState | opUpdateChannelHandler
| opRemoveConfigHandler | opRemoveChannelHandler | opDisconnectThingHandler.

Definition Args (op : Op) : Type :=
  match op with
  | opAdd => Context * string * Config
  | opView => Context * string * string
  | opUpdate => Context * string * Config
  | opUpdateCert => Context * string * string * string * string * string
  | opUpdateConnections => Context * string * string * list string
  | opList => Context * string * Filter * N * N
  | opRemove => Context * string * string
  | opBootstrap => Context * string * string * bool
  | opChangeState => Context * string * string * State
  | opUpdateChannelHandler => Context * Channel
  | opRemoveConfigHandler => Context * string
  | opRemoveChannelHandler => Context * string
  | opDisconnectThingHandler => Context * string * string
  end%type.

Definition Res (op : Op) : Type :=
  match op with
  | opAdd | opView | opUpdateCert | opBootstrap => Config * error
  | opList => ConfigsPage * error
  | _ => error
  end%type.

Definition err_of (op : Op) : Res op -> error :=
  match op with
  | opAdd | opView | opUpdateCert | opBootstrap => fun r => snd r
  | opList => fun r => snd r
  | _ => fun r => r
  end.

(** [bootstrap.Service]: what each operation returns on its arguments. *)
Definition Service : Type := forall op : Op, Args op -> Res op.

Definition Call : Type := { op : Op & Args op }.

(** The name of an operation in its two messages. *)
Definition name (op : Op) : string :=
  match op with
  | opAdd => "Add"
  | opView => "View"
  | opUpdate => "Update"
  | opUpdateCert => "Update cert"
  | opUpdateConnections => "Update connections"
  | opList => "List"
  | opRemove => "Remove"
  | opBootstrap => "Bootstrap"
  | opChangeState => "Change state"
  | opUpdateChannelHandler => "Update channel handler"
  | opRemoveConfigHandler => "Remove config handler"
  | opRemoveChannelHandler => "Remove channel handler"
  | opDisconnectThingHandler => "Disconnect thing handler"
  end.

(** The fields of the record of an operation that are drawn from its
    result: their path in the record and their value. *)
Definition result_fields (op : Op) : Res op -> list (list string * slog.Value) :=
  match op with
  | opAdd => fun r => [(["thing_id"], slog.StringValue (ThingID (fst r)))]
  | opUpdateCert => fun r => [(["thing_id"], slog.StringValue (ThingID (fst r)))]
  | _ => fun _ => []
  end.

(** The service every operation of which fails with [e], returning the zero
    value of its result type. *)
Definition fails (e : GoError) : Service :=
  fun op =>
    match op return Args op -> Res op with
    | opAdd | opView | opUpdateCert | opBootstrap => fun _ => (mkConfig EmptyString, Some e)
    | opList => fun _ => (mkConfigsPage [], Some e)
    | _ => fun _ => Some e
    end.

Section Middleware.
Context `{Platform}.

Record loggingMiddleware : Type := mkLoggingMiddleware {
  logger : Logger.Logger;
  svc : Service
}.

Definition LoggingMiddleware (svc : Service) (logger : Logger.Logger) : loggingMiddleware :=
  mkLoggingMiddleware logger svc.

(** [lm.svc.<op>(args)]. *)
Definition invoke (s : Service) (op : Op) (a : Args op) : Go Call (Res op) :=
  emit (Invoke (existT Args op a)) ;;; ret (s op a).

Definition Add (lm : loggingMiddleware) (ctx : Context) (token : string) (cfg : Config)
  : Go Call (Config * error) :=
  begin <- time_Now ;;
  defer (fun '(saved, err) =>
    d <- time_Since begin ;;
    let args := [slog.String_ "duration" (Duration_String d);
                 slog.String_ "thing_id" (ThingID saved)] in
    match err with
    | Some e => Logger.Warn (logger lm) "Add failed to complete successfully"
                  (append args [slog.Any "error" (slog.AnyError e)])
    | None => Logger.Info (logger lm) "Add completed successfully" args
    end)
  (invoke (svc lm) opAdd (ctx, token, cfg)).

Definition View (lm : loggingMiddleware) (ctx : Context) (token id : string)
  : Go Call (Config * error) :=
  begin <- time_Now ;;
  defer (fun '(saved, err) =>
    d <- time_Since begin ;;
    let args := [slog.String_ "duration" (Duration_String d);
                 slog.String_ "thing_id" id] in
    match err with
    | Some e => Logger.Warn (logger lm) "View failed to complete successfully"
                  (append args [slog.Any "error" (slog.AnyError e)])
    | None => Logger.Info (logger lm) "View completed successfully" args
    end)
  (invoke (svc lm) opView (ctx, token, id)).

Definition Update (lm : loggingMiddleware) (ctx : Context) (token : string) (cfg : Config)
  : Go Call error :=
  begin <- time_Now ;;
  defer (fun err =>
    d <- time_Since begin ;;
    let args := [slog.String_ "duration" (Duration_String d);
                 slog.String_ "thing_id" (ThingID cfg)] in
    match err with
    | Some e => Logger.Warn (logger lm) "Update failed to complete successfully"
                  (append args [slog.Any "error" (slog.AnyError e)])
    | None => Logger.Info (logger lm) "Update completed successfully" args
    end)
  (invoke (svc lm) opUpdate (ctx, token, cfg)).

Definition UpdateCert (lm : loggingMiddleware) (ctx : Context) (token thingID clientCert clientKey caCert : string)
  : Go Call (Config * error) :=
  begin <- time_Now ;;
  defer (fun '(cfg, err) =>
    d <- time_Since begin ;;
    let args := [slog.String_ "duration" (Duration_String d);
                 slog.String_ "thing_id" (ThingID cfg)] in
    match err with
    | Some e => Logger.Warn (logger lm) "Update cert failed to complete successfully"
                  (append args [slog.Any "error" (slog.AnyError e)])
    | None => Logger.Info (logger lm) "Update cert completed successfully" args
    end)
  (invoke (svc lm) opUpdateCert (ctx, token, thingID, clientCert, clientKey, caCert)).

Definition UpdateConnections (lm : loggingMiddleware) (ctx : Context) (token id : string) (connections : list string)
  : Go Call error :=
  begin <- time_Now ;;
  defer (fun err =>
    d <- time_Since begin ;;
    let args := [slog.String_ "duration" (Duration_String d);
                 slog.String_ "id" id] in
    match err with
    | Some e => Logger.Warn (logger lm) "Update connections failed to complete successfully"
                  (append args [slog.Any "error" (slog.AnyError e)])
    | None => Logger.Info (logger lm) "Update connections completed successfully" args
    end)
  (invoke (svc lm) opUpdateConnections (ctx, token, id, connections)).

Definition List (lm : loggingMiddleware) (ctx : Context) (token : string) (filter : Filter) (offset limit : N)
  : Go Call (ConfigsPage * error) :=
  begin <- time_Now ;;
  defer (fun '(res, err) =>
    d <- time_Since begin ;;
    let args := [slog.String_ "duration" (Duration_String d);
                 slog.Group "filter"
                   [slog.Uint64 "offset" offset;
                    slog.Uint64 "limit" limit]] in
    match err with
    | Some e => Logger.Warn (logger lm) "List failed to complete successfully"
                  (append args [slog.Any "error" (slog.AnyError e)])
    | None => Logger.Info (logger lm) "List completed successfully" args
    end)
  (invoke (svc lm) opList (ctx, token, filter, offset, limit)).

Definition Remove (lm : loggingMiddleware) (ctx : Context) (token id : string)
  : Go Call error :=
  begin <- time_Now ;;
  defer (fun err =>
    d <- time_Since begin ;;
    let args := [slog.String_ "duration" (Duration_String d);
                 slog.String_ "id" id] in
    match err with
    | Some e => Logger.Warn (logger lm) "Remove failed to complete successfully"
                  (append args [slog.Any "error" (slog.AnyError e)])
    | None => Logger.Info (logger lm) "Remove completed successfully" args
    end)
  (invoke (svc lm) opRemove (ctx, token, id)).

Definition Bootstrap (lm : loggingMiddleware) (ctx : Context) (externalKey externalID : string) (secure : bool)
  : Go Call (Config * error) :=
  begin <- time_Now ;;
  defer (fun '(cfg, err) =>
    d <- time_Since begin ;;
    let args := [slog.String_ "duration" (Duration_String d);
                 slog.Group "config"
                   [slog.String_ "external_id" externalID]] in
    match err with
    | Some e => Logger.Warn (logger lm) "Bootstrap failed to complete successfully"
                  (append args [slog.Any "error" (slog.AnyError e)])
    | None => Logger.Info (logger lm) "Bootstrap completed successfully" args
    end)
  (invoke (svc lm) opBootstrap (ctx, externalKey, externalID, secure)).

Definition ChangeState (lm : loggingMiddleware) (ctx : Context) (token id : string) (state : State)
  : Go Call error :=
  begin <- time_Now ;;
  defer (fun err =>
    d <- time_Since begin ;;
    let args := [slog.String_ "duration" (Duration_String d);
                 slog.String_ "id" id;
                 slog.Any "state" (slog.AnyNamedInt state)] in
    match err with
    | Some e => Logger.Warn (logger lm) "Change state failed to complete successfully"
                  (append args [slog.Any "error" (slog.AnyError e)])
    | None => Logger.Info (logger lm) "Change state completed successfully" args
    end)
  (invoke (svc lm) opChangeState (ctx, token, id, state)).

Definition UpdateChannelHandler (lm : loggingMiddleware) (ctx : Context) (channel : Channel)
  : Go Call error :=
  begin <- time_Now ;;
  defer (fun err =>
    d <- time_Since begin ;;
    let args := [slog.String_ "duration" (Duration_String d);
                 slog.Group "channel"
                   [slog.String_ "channel_id" (ID channel);
                    slog.String_ "channel_name" (Name channel);
                    slog.Any "channel_metadata" (slog.AnyMap (Metadata channel))]] in
    match err with
    | Some e => Logger.Warn (logger lm) "Update channel handler failed to complete successfully"
                  (append args [slog.Any "error" (slog.AnyError e)])
    | None => Logger.Info (logger lm) "Update channel handler completed successfully" args
    end)
  (invoke (svc lm) opUpdateChannelHandler (ctx, channel)).

Definition RemoveConfigHandler (lm : loggingMiddleware) (ctx : Context) (id : string)
  : Go Call error :=
  begin <- time_Now ;;
  defer (fun err =>
    d <- time_Since begin ;;
    let args := [slog.String_ "duration" (Duration_String d);
                 slog.String_ "config_id" id] in
    match err with
    | Some e => Logger.Warn (logger lm) "Remove config handler failed to complete successfully"
                  (append args [slog.Any "error" (slog.AnyError e)])
    | None => Logger.Info (logger lm) "Remove config handler completed successfully" args
    end)
  (invoke (svc lm) opRemoveConfigHandler (ctx, id)).

Definition RemoveChannelHandler (lm : loggingMiddleware) (ctx : Context) (id : string)
  : Go Call error :=
  begin <- time_Now ;;
  defer (fun err =>
    d <- time_Since begin ;;
    let args := [slog.String_ "duration" (Duration_String d);
                 slog.String_ "id" id] in
    match err with
    | Some e => Logger.Warn (logger lm) "Remove channel handler failed to complete successfully"
                  (append args [slog.Any "error" (slog.AnyError e)])
    | None => Logger.Info (logger lm) "Remove channel handler completed successfully" args
    end)
  (invoke (svc lm) opRemoveChannelHandler (ctx, id)).

Definition DisconnectThingHandler (lm : loggingMiddleware) (ctx : Context) (channelID thingID : string)
  : Go Call error :=
  begin <- time_Now ;;
  defer (fun err =>
    d <- time_Since begin ;;
    let args := [slog.String_ "duration" (Duration_String d);
                 slog.String_ "channel_id" channelID;
                 slog.String_ "thing_id" thingID] in
    match err with
    | Some e => Logger.Warn (logger lm) "Disconnect thing handler failed to complete successfully"
                  (append args [slog.Any "error" (slog.AnyError e)])
    | None => Logger.Info (logger lm) "Disconnect thing handler completed successfully" args
    end)
  (invoke (svc lm) opDisconnectThingHandler (ctx, channelID, thingID)).

(** The middleware as an implementation of [bootstrap.Service]. *)
Definition method (lm : loggingMiddleware) (op : Op) : Args op -> Go Call (Res op) :=
  match op with
  | opAdd => fun '(ctx, token, cfg) => Add lm ctx token cfg
  | opView => fun '(ctx, token, id) => View lm ctx token id
  | opUpdate => fun '(ctx, token, cfg) => Update lm ctx token cfg
  | opUpdateCert => fun '(ctx, token, thingID, clientCert, clientKey, caCert) =>
      UpdateCert lm ctx token thingID clientCert clientKey caCert
  | opUpdateConnections => fun '(ctx, token, id, connections) =>
      UpdateConnections lm ctx token id connections
  | opList => fun '(ctx, token, filter, offset, limit) => List lm ctx token filter offset limit
  | opRemove => fun '(ctx, token, id) => Remove lm ctx token id
  | opBootstrap => fun '(ctx, externalKey, externalID, secure) =>
      Bootstrap lm ctx externalKey externalID secure
  | opChangeState => fun '(ctx, token, id, state) => ChangeState lm ctx token id state
  | opUpdateChannelHandler => fun '(ctx, channel) => UpdateChannelHandler lm ctx channel
  | opRemoveConfigHandler => fun '(ctx, id) => RemoveConfigHandler lm ctx id
  | opRemoveChannelHandler => fun '(ctx, id) => RemoveChannelHandler lm ctx id
  | opDisconnectThingHandler => fun '(ctx, channelID, thingID) =>
      DisconnectThingHandler lm ctx channelID thingID
  end.

End Middleware.
End Bootstrap.

(** ** The logging middleware of the session handler *)
Module Handler.

(** The operations of [session.Handler]; a pointer is an option, [None]
    being [nil]. *)
Inductive Op : Type :=
| opAuthConnect | opAuthPublish | opAuthSubscribe | opConnect
| opDisconnect | opPublish | opSubscribe | opUnsubscribe.

Definition Args (op : Op) : Type :=
  match op with
  | opAuthConnect | opConnect | opDisconnect => Context
  | opAuthPublish | opPublish => Context * option string * option string
  | opAuthSubscribe | opSubscribe | opUnsubscribe => Context * option (list string)
  end%type.

Definition Res (op : Op) : Type := error.

Definition err_of (op : Op) : Res op -> error := fun r => r.

(** [session.Handler]: what each operation returns on its arguments. *)
Definition Service : Type := forall op : Op, Args op -> Res op.

Definition Call : Type := { op : Op & Args op }.

(** The handler every operation of which fails with [e]. *)
Definition fails (e : GoError) : Service := fun _ _ => Some e.

Section Middleware.
Context `{Platform}.

Record loggingMiddleware : Type := mkLoggingMiddleware {
  logger : Logger.Logger;
  svc : Service
}.

Definition LoggingMiddleware (svc : Service) (logger : Logger.Logger) : loggingMiddleware :=
  mkLoggingMiddleware logger svc.

Definition logAction (lm : loggingMiddleware) (ctx : Context) (action : string)
  (topics : option (list string)) : Go Call error :=
  begin <- time_Now ;;
  defer (fun err : error =>
    d <- time_Since begin ;;
    let args := [slog.String_ "duration" (Duration_String d)] in
    let args := match topics with
                | Some ts => append args [slog.Any "topics" (slog.AnyStrings ts)]
                | None => args
                end in
    match err with
    | Some e => Logger.Warn (logger lm) (action ++ "() failed to complete successfully")
                  (append args [slog.Any "error" (slog.AnyError e)])
    | None => Logger.Info (logger lm) (action ++ "() completed successfully") args
    end)
  (ret None).

Definition AuthConnect (lm : loggingMiddleware) (ctx : Context) : Go Call error :=
  logAction lm ctx "AuthConnect" None.

Definition AuthPublish (lm : loggingMiddleware) (ctx : Context)
  (topic : option string) (payload : option string) : Go Call error :=
  t <- deref topic ;;
  logAction lm ctx "AuthPublish" (Some [t]).

Definition AuthSubscribe (lm : loggingMiddleware) (ctx : Context)
  (topics : option (list string)) : Go Call error :=
  logAction lm ctx "AuthSubscribe" topics.

Definition Connect (lm : loggingMiddleware) (ctx : Context) : Go Call error :=
  logAction lm ctx "Connect" None.

Definition Disconnect (lm : loggingMiddleware) (ctx : Context) : Go Call error :=
  logAction lm ctx "Disconnect" None.

Definition Publish (lm : loggingMiddleware) (ctx : Context)
  (topic : option string) (payload : option string) : Go Call error :=
  t <- deref topic ;;
  logAction lm ctx "Publish" (Some [t]).

Definition Subscribe (lm : loggingMiddleware) (ctx : Context)
  (topics : option (list string)) : Go Call error :=
  logAction lm ctx "Subscribe" topics.

Definition Unsubscribe (lm : loggingMiddleware) (ctx : Context)
  (topics : option (list string)) : Go Call error :=
  logAction lm ctx "Unsubscribe" topics.

(** The middleware as an implementation of [session.Handler]. *)
Definition method (lm : loggingMiddleware) (op : Op) : Args op -> Go Call (Res op) :=
  match op with
  | opAuthConnect => fun ctx => AuthConnect lm ctx
  | opAuthPublish => fun '(ctx, topic, payload) => AuthPublish lm ctx topic payload
  | opAuthSubscribe => fun '(ctx, topics) => AuthSubscribe lm ctx topics
  | opConnect => fun ctx => Connect lm ctx
  | opDisconnect => fun ctx => Disconnect lm ctx
  | opPublish => fun '(ctx, topic, payload) => Publish lm ctx topic payload
  | opSubscribe => fun '(ctx, topics) => Subscribe lm ctx topics
  | opUnsubscribe => fun '(ctx, topics) => Unsubscribe lm ctx topics
  end.

End Middleware.
End Handler.

(** ** A platform and inputs to run the model on *)
Module Example.

(** Durations are printed as Go prints a duration below one microsecond, a
    count of nanoseconds; the clock below ticks by 250ns.  The error of
    [Level.UnmarshalText] has the text of logger/level.go upstream.  A text
    is quoted as Go quotes printable ASCII without quotes or backslashes,
    and letters outside ASCII are left as they are. *)
Definition platform : Platform := {|
  Duration_String := fun d => NilZero.string_of_int (Z.to_int d) ++ "ns";
  ErrInvalidLogLevel := errors_New "unrecognized log level";
  strconv_Quote := quoted;
  unicode_ToUpper := fun s => s
|}.

Definition clock (n : nat) : Z := (250 * Z.of_nat n)%Z.

Definition start {C : Type} : world C := initial clock.

Definition ctx : Context := [].

Definition errNotFound : GoError := errors_New "errNotFound".

(** A logger whose handler lets every level through. *)
Definition verbose : Logger.Logger := Logger.NewJSONLogger slog.LevelDebug.

End Example.

(** ** The fields of a record that are drawn from the arguments *)
Module Inputs.

(** For each operation of the users middleware, the fields of its record
    that are drawn from the arguments of the call: their path and value. *)
Definition users (op : Users.Op) : Users.Args op -> list (list string * slog.Value) :=
  match op with
  | Users.opIssueToken => fun '(_, _, _, domainID) =>
      [(["domain_id"], slog.StringValue domainID)]
  | Users.opRefreshToken => fun '(_, _, domainID) =>
      [(["domain_id"], slog.StringValue domainID)]
  | Users.opViewClient => fun '(_, _, id) => [(["user"; "id"], slog.StringValue id)]
  | Users.opListClients => fun '(_, _, pm) =>
      [(["page"; "limit"], slog.Uint64Value (Users.Limit pm));
       (["page"; "offset"], slog.Uint64Value (Users.Offset pm))]
  | Users.opUpdateClientIdentity => fun '(_, _, _, ident) =>
      [(["user"; "identity"], slog.StringValue ident)]
  | Users.opUpdateClientRole => fun '(_, _, client) =>
      [(["user"; "role"], slog.StringValue (Users.Role_String (Users.Role_ client)))]
  | Users.opListMembers => fun '(_, _, objectKind, objectID, cp) =>
      [(["object_kind"], slog.StringValue objectKind);
       (["object_id"], slog.StringValue objectID);
       (["page"; "limit"], slog.Uint64Value (Users.Limit cp));
       (["page"; "offset"], slog.Uint64Value (Users.Offset cp))]
  | _ => fun _ => []
  end.

(** The same for the bootstrap middleware. *)
Definition bootstrap (op : Bootstrap.Op)
  : Bootstrap.Args op -> list (list string * slog.Value) :=
  match op with
  | Bootstrap.opAdd => fun _ => []
  | Bootstrap.opView => fun '(_, _, id) => [(["thing_id"], slog.StringValue id)]
  | Bootstrap.opUpdate => fun '(_, _, cfg) =>
      [(["thing_id"], slog.StringValue (Bootstrap.ThingID cfg))]
  | Bootstrap.opUpdateCert => fun _ => []
  | Bootstrap.opUpdateConnections => fun '(_, _, id, _) => [(["id"], slog.StringValue id)]
  | Bootstrap.opList => fun '(_, _, _, offset, limit) =>
      [(["filter"; "offset"], slog.Uint64Value offset);
       (["filter"; "limit"], slog.Uint64Value limit)]
  | Bootstrap.opRemove => fun '(_, _, id) => [(["id"], slog.StringValue id)]
  | Bootstrap.opBootstrap => fun '(_, _, externalID, _) =>
      [(["config"; "external_id"], slog.StringValue externalID)]
  | Bootstrap.opChangeState => fun '(_, _, id, state) =>
      [(["id"], slog.StringValue id);
       (["state"], slog.KindAny (slog.AnyNamedInt state))]
  | Bootstrap.opUpdateChannelHandler => fun '(_, channel) =>
      [(["channel"; "channel_id"], slog.StringValue (Bootstrap.ID channel));
       (["channel"; "channel_name"], slog.StringValue (Bootstrap.Name channel));
       (["channel"; "channel_metadata"],
        slog.KindAny (slog.AnyMap (Bootstrap.Metadata channel)))]
  | Bootstrap.opRemoveConfigHandler => fun '(_, id) => [(["config_id"], slog.StringValue id)]
  | Bootstrap.opRemoveChannelHandler => fun '(_, id) => [(["id"], slog.StringValue id)]
  | Bootstrap.opDisconnectThingHandler => fun '(_, channelID, thingID) =>
      [(["channel_id"], slog.StringValue channelID);
       (["thing_id"], slog.StringValue thingID)]
  end.

(** The token an operation of the certs service is called with. *)
Definition certs_token (op : Certs.Op) : Certs.Args op -> string :=
  match op with
  | Certs.opIssueCert => fun '(_, token, _, _) => token
  | Certs.opListCerts => fun '(_, token, _, _, _) => token
  | Certs.opListSerials => fun '(_, token, _, _, _) => token
  | Certs.opViewCert => fun '(_, token, _) => token
  | Certs.opRevokeCert => fun '(_, token, _) => token
  end.

(** The topics an operation of the session handler is called with, when the
    middleware puts them in its record: the one topic of a publication, the
    topics of a subscription unless the pointer is nil. *)
Definition handler_topics (op : Handler.Op) : Handler.Args op -> option (list string) :=
  match op with
  | Handler.opAuthConnect | Handler.opConnect | Handler.opDisconnect => fun _ => None
  | Handler.opAuthPublish | Handler.opPublish => fun '(_, topic, _) =>
      match topic with
      | Some t => Some [t]
      | None => None
      end
  | Handler.opAuthSubscribe | Handler.opSubscribe | Handler.opUnsubscribe =>
      fun '(_, topics) => topics
  end.

(** A publication with a nil topic. *)
Definition handler_nil_topic (op : Handler.Op) : Handler.Args op -> bool :=
  match op with
  | Handler.opAuthPublish | Handler.opPublish => fun '(_, topic, _) =>
      match topic with
      | Some _ => false
      | None => true
      end
  | _ => fun _ => false
  end.

(** The name under which an operation of the session handler is logged. *)
Definition handler_action (op : Handler.Op) : string :=
  match op with
  | Handler.opAuthConnect => "AuthConnect"
  | Handler.opAuthPublish => "AuthPublish"
  | Handler.opAuthSubscribe => "AuthSubscribe"
  | Handler.opConnect => "Connect"
  | Handler.opDisconnect => "Disconnect"
  | Handler.opPublish => "Publish"
  | Handler.opSubscribe => "Subscribe"
  | Handler.opUnsubscribe => "Unsubscribe"
  end.

End Inputs.

(** ** Results that differ in their error only *)
Module Outcome.

(** The results [r] of an operation of the users service with the error
    [e] in place of theirs. *)
Definition users_failing (op : Users.Op) : Users.Res op -> GoError -> Users.Res op :=
  match op with
  | Users.opGenerateResetToken | Users.opResetSecret | Users.opSendPasswordReset =>
      fun _ e => Some e
  | _ => fun r e => (fst r, Some e)
  end.

Definition bootstrap_failing (op : Bootstrap.Op)
  : Bootstrap.Res op -> GoError -> Bootstrap.Res op :=
  match op with
  | Bootstrap.opAdd | Bootstrap.opView | Bootstrap.opUpdateCert | Bootstrap.opBootstrap =>
      fun r e => (fst r, Some e)
  | Bootstrap.opList => fun r e => (fst r, Some e)
  | _ => fun _ e => Some e
  end.

(** What one call adds to the sink: nothing or one record of level Info or
    Warn that the handler of [l] lets through. *)
Definition one_line_at_most {C : Type} (l : Logger.Logger) (w w' : world C) : Prop :=
  exists rs,
    sink w' = (sink w ++ rs)%list
    /\ (rs = []
        \/ exists r, rs = [r]
                     /\ (Logger.HandlerLevel l <= slog.rLevel r)%Z
                     /\ (slog.rLevel r = slog.LevelInfo \/ slog.rLevel r = slog.LevelWarn)).

End Outcome.

(** ** Calls in sequence *)
Module Sequence.
Section Sequence.
Context `{Platform}.

(** The calls [reqs] made one after the other on the users middleware, each
    result being dropped. *)
Fixpoint users (lm : Users.loggingMiddleware) (reqs : list Users.Call)
  : Go Users.Call unit :=
  match reqs with
  | [] => ret tt
  | existT _ op a :: rest => _ <- Users.method lm op a ;; users lm rest
  end.

(** The error the wrapped service answers a call with. *)
Definition users_error (lm : Users.loggingMiddleware) (c : Users.Call) : error :=
  Users.err_of (projT1 c) (Users.svc lm (projT1 c) (projT2 c)).

Definition users_nil (lm : Users.loggingMiddleware) (c : Users.Call) : bool :=
  Users.nil_result (projT1 c) (Users.svc lm (projT1 c) (projT2 c)).

(** The operations [(op, msg)] called one after the other on a logger of
    logger/slogger.go. *)
Fixpoint logger {C : Type} (l : slogger.logger) (ctx : Context)
  (calls : list (Level.Level * string)) : Go C unit :=
  match calls with
  | [] => ret tt
  | (op, msg) :: rest => slogger.operation op l ctx msg ;;; logger l ctx rest
  end.

(** The level at which an operation of logger/slogger.go logs. *)
Definition slog_level (op : Level.Level) : slog.Level :=
  match op with
  | Level.Debug => slog.LevelDebug
  | Level.Info => slog.LevelInfo
  | Level.Warn => slog.LevelWarn
  | Level.Error => slog.LevelError
  end.


(** The record an operation writes at the clock reading [t]. *)
Definition line (t : Z) (op : Level.Level) (msg : string) : slog.record :=
  match op with
  | Level.Debug =>
      slog.NewRecord t slog.LevelDebug "msg" [slog.mkAttr slog.badKey (slog.StringValue msg)]
  | _ => slog.NewRecord t (slog_level op) msg []
  end.

(** The lines of the calls that the threshold allows, each stamped with the
    next reading of the clock, [n] being the readings taken so far. *)
Fixpoint lines (threshold : Level.Level) (clk : nat -> Z) (n : nat)
  (calls : list (Level.Level * string)) : list slog.record :=
  match calls with
  | [] => []
  | (op, msg) :: rest =>
      if Level.isAllowed op threshold
      then line (clk n) op msg :: lines threshold clk (S n) rest
      else lines threshold clk n rest
  end.

End Sequence.
End Sequence.

(** ** cmd/cassandra-writer/main.go *)
Module Main.

Definition svcName : string := "cassandra-writer".
Definition envPrefixDB : string := "MG_CASSANDRA_".
Definition envPrefixHTTP : string := "MG_CASSANDRA_WRITER_HTTP_".
Definition defSvcHTTPPort : string := "9004".

(** The configuration read from the environment; [TraceRatio] is a
    [float64] that the program only passes on, kept as its 64 bits. *)
Record config : Type := mkConfig {
  LogLevel : string;
  ConfigPath : string;
  BrokerURL : string;
  JaegerURL : string;
  SendTelemetry : bool;
  InstanceID : string;
  TraceRatio : N
}.

(** The functions of other packages that [main] calls, with the arguments
    that [main] computes. *)
Inductive extern : Type :=
| env_Parse
| mflog_New (levelText : string)
| uuid_ID
| env_ParseWithOptions (prefix : string)
| cassandraclient_SetupDB (prefix : string)
| csdSession_Close
| jaegerclient_NewProvider (svc url instanceID : string) (ratio : N)
| tp_Shutdown
| tp_Tracer (svc : string)
| cassandra_New
| api_LoggingMiddleware
| internal_MakeMetrics (namespace subsystem : string)
| api_MetricsMiddleware
| consumertracing_NewBlocking
| brokers_NewPubSub (url : string)
| pubSub_Close
| brokerstracing_NewPubSub
| consumers_Start (svc configPath : string)
| api_MakeHandler (svc instanceID : string)
| httpserver_New
| chclient_New (svc : string)
| go_CallHome
| go_hs_Start
| go_StopSignalHandler
| g_Wait
| mglog_ExitWithError (exitCode : Z).

(** A call of one of them, with the error it returned. *)
Record call : Type := Called { callee : extern; failure : error }.

(** What the environment and the other packages answer in one run of the
    program: the configuration and the error of [env.Parse], and the error
    of each call that can fail.  [x_Wait] is the error of [g.Wait()], that
    is of the first of the two goroutines to fail. *)
Record Externals : Type := mkExternals {
  x_config : config;
  x_env_Parse : error;
  x_mflog_New : error;
  x_uuid_ID : string * error;
  x_env_ParseWithOptions : error;
  x_SetupDB : error;
  x_NewProvider : error;
  x_Shutdown : error;
  x_NewPubSub : error;
  x_consumers_Start : error;
  x_Wait : error
}.

(** How the process ends: [log.Fatalf] prints and exits at once; otherwise
    [main] returns and the deferred [mglog.ExitWithError] gets the exit
    code. *)
Inductive exit : Type :=
| Fatalf (msg : string)
| Exit (exitCode : Z).

(** [fmt.Sprintf] with the verbs [%s] and [%v], which print a string or an
    error the same way. *)
Fixpoint Sprintf (format : string) (operands : list string) : string :=
  match format with
  | String "%" (String "s" rest) | String "%" (String "v" rest) =>
      match operands with
      | o :: os => o ++ Sprintf rest os
      | [] => "%!(MISSING)" ++ Sprintf rest []
      end
  | String c rest => String c (Sprintf rest operands)
  | EmptyString => EmptyString
  end.

Section Main.
Context `{Platform}.

Definition ext (f : extern) (err : error) : Go call unit :=
  emit (Invoke (Called f err)).

(** [logger.Error(ctx, msg)] on a value of the interface [mglog.Logger],
    [None] being nil. *)
Definition logger_Error (logger : option slogger.logger) (ctx : Context) (msg : string)
  : Go call unit :=
  l <- deref logger ;;
  slogger.Error l ctx msg.

Definition newService : Go call unit :=
  ext cassandra_New None ;;;
  ext api_LoggingMiddleware None ;;;
  ext (internal_MakeMetrics "cassandra" "message_writer") None ;;;
  ext api_MetricsMiddleware None.

(** [main] from the deferred [mglog.ExitWithError(&exitCode)] on; its
    value is the exit code. *)
Definition run (x : Externals) (logger : option slogger.logger) (ctx : Context)
  : Go call Z :=
  let cfg := x_config x in
  '(instanceID, err) <-
     (if String.eqb (InstanceID cfg) EmptyString
      then ext uuid_ID (snd (x_uuid_ID x)) ;;; ret (x_uuid_ID x)
      else ret (InstanceID cfg, None)) ;;
  match err with
  | Some e =>
      logger_Error logger ctx (Sprintf "failed to generate instanceID: %s" [Error e]) ;;;
      ret 1%Z
  | None =>
  ext (env_ParseWithOptions envPrefixHTTP) (x_env_ParseWithOptions x) ;;;
  match x_env_ParseWithOptions x with
  | Some e =>
      logger_Error logger ctx
        (Sprintf "failed to load %s HTTP server configuration : %s" [svcName; Error e]) ;;;
      ret 1%Z
  | None =>
  ext (cassandraclient_SetupDB envPrefixDB) (x_SetupDB x) ;;;
  match x_SetupDB x with
  | Some e => logger_Error logger ctx (Error e) ;;; ret 1%Z
  | None =>
  defer (fun _ => ext csdSession_Close None)
    (ext (jaegerclient_NewProvider svcName (JaegerURL cfg) instanceID (TraceRatio cfg))
         (x_NewProvider x) ;;;
     match x_NewProvider x with
     | Some e =>
         logger_Error logger ctx (Sprintf "Failed to init Jaeger: %s" [Error e]) ;;;
         ret 1%Z
     | None =>
     defer (fun _ =>
              ext tp_Shutdown (x_Shutdown x) ;;;
              match x_Shutdown x with
              | Some e =>
                  logger_Error logger ctx
                    (Sprintf "Error shutting down tracer provider: %v" [Error e])
              | None => ret tt
              end)
       (ext (tp_Tracer svcName) None ;;;
        newService ;;;
        ext consumertracing_NewBlocking None ;;;
        ext (brokers_NewPubSub (BrokerURL cfg)) (x_NewPubSub x) ;;;
        match x_NewPubSub x with
        | Some e =>
            logger_Error logger ctx
              (Sprintf "failed to connect to message broker: %s" [Error e]) ;;;
            ret 1%Z
        | None =>
        defer (fun _ => ext pubSub_Close None)
          (ext brokerstracing_NewPubSub None ;;;
           ext (consumers_Start svcName (ConfigPath cfg)) (x_consumers_Start x) ;;;
           match x_consumers_Start x with
           | Some e =>
               logger_Error logger ctx
                 (Sprintf "Failed to create Cassandra writer: %s" [Error e]) ;;;
               ret 1%Z
           | None =>
               ext (api_MakeHandler svcName instanceID) None ;;;
               ext httpserver_New None ;;;
               (if SendTelemetry cfg
                then ext (chclient_New svcName) None ;;; ext go_CallHome None
                else ret tt) ;;;
               ext go_hs_Start None ;;;
               ext go_StopSignalHandler None ;;;
               ext g_Wait (x_Wait x) ;;;
               match x_Wait x with
               | Some e =>
                   logger_Error logger ctx
                     (Sprintf "Cassandra writer service terminated: %s" [Error e])
               | None => ret tt
               end ;;;
               ret 0%Z
           end)
        end)
     end)
  end end end.

(** [main]: the goroutines it starts are calls in the trace, and what they
    do is not modelled. *)
Definition main (x : Externals) : Go call exit :=
  let ctx : Context := [] in
  let cfg := x_config x in
  ext env_Parse (x_env_Parse x) ;;;
  match x_env_Parse x with
  | Some e =>
      ret (Fatalf (Sprintf "failed to load %s configuration : %s" [svcName; Error e]))
  | None =>
  '(logger, err) <- slogger.New (LogLevel cfg) ;;
  match err with
  | Some e => ret (Fatalf (Sprintf "failed to init logger: %s" [Error e]))
  | None =>
  ext (mflog_New (LogLevel cfg)) (x_mflog_New x) ;;;
  match x_mflog_New x with
  | Some e => logger_Error logger ctx (Sprintf "failed to create logger: %s" [Error e])
  | None => ret tt
  end ;;;
  exitCode <- defer (fun exitCode => ext (mglog_ExitWithError exitCode) None)
                    (run x logger ctx) ;;
  ret (Exit exitCode)
  end end.

End Main.

(** A startup step after the loggers fails. *)
Definition startup_fails (x : Externals) : bool :=
  (String.eqb (InstanceID (x_config x)) EmptyString
   && Contract.failed (snd (x_uuid_ID x)))
  || Contract.failed (x_env_ParseWithOptions x)
  || Contract.failed (x_SetupDB x)
  || Contract.failed (x_NewProvider x)
  || Contract.failed (x_NewPubSub x)
  || Contract.failed (x_consumers_Start x).

(** The resources [main] acquires and releases. *)
Inductive resource : Type := Session | Provider | PubSub.

Definition acquired (c : call) : list resource :=
  match c with
  | Called (cassandraclient_SetupDB _) None => [Session]
  | Called (jaegerclient_NewProvider _ _ _ _) None => [Provider]
  | Called (brokers_NewPubSub _) None => [PubSub]
  | _ => []
  end.

Definition released (c : call) : list resource :=
  match c with
  | Called csdSession_Close _ => [Session]
  | Called tp_Shutdown _ => [Provider]
  | Called pubSub_Close _ => [PubSub]
  | _ => []
  end.

(** The calls before the first release, and those from it on. *)
Fixpoint before_release (cs : list call) : list call :=
  match cs with
  | [] => []
  | c :: rest =>
      match released c with
      | [] => c :: before_release rest
      | _ => []
      end
  end.

Fixpoint from_release (cs : list call) : list call :=
  match cs with
  | [] => []
  | c :: rest =>
      match released c with
      | [] => from_release rest
      | _ => c :: rest
      end
  end.

End Main.

(** ** More inputs to run the model on *)
Module Samples.

Definition alice : Users.Client :=
  Users.mkClient "alice" "u-1" ["admin"] [] (Users.mkRole "user").

(** A users service every operation of which succeeds, and the same
    service failing with [e]. *)
Definition users_ok : Users.Service :=
  fun op =>
    match op return Users.Args op -> Users.Res op with
    | Users.opIssueToken | Users.opRefreshToken =>
        fun _ => (Some (Users.mkToken "Bearer"), None)
    | Users.opListClients => fun _ => (Users.mkClientsPage [alice], None)
    | Users.opGenerateResetToken | Users.opResetSecret | Users.opSendPasswordReset =>
        fun _ => None
    | Users.opListMembers => fun _ => (Users.mkMembersPage [alice], None)
    | Users.opIdentify => fun _ => ("u-1", None)
    | _ => fun _ => (alice, None)
    end.

Definition users_ko (e : GoError) : Users.Service :=
  fun op a => Outcome.users_failing op (users_ok op a) e.

(** The same two services with a nil token as the result of the token
    operations. *)
Definition users_nil_ok : Users.Service :=
  fun op =>
    match op return Users.Args op -> Users.Res op with
    | Users.opIssueToken | Users.opRefreshToken => fun _ => (None, None)
    | other => users_ok other
    end.

Definition users_nil_ko (e : GoError) : Users.Service :=
  fun op a => Outcome.users_failing op (users_nil_ok op a) e.

(** A bootstrap service every operation of which succeeds, and the same
    service failing with [e]. *)
Definition bootstrap_ok : Bootstrap.Service :=
  fun op =>
    match op return Bootstrap.Args op -> Bootstrap.Res op with
    | Bootstrap.opAdd | Bootstrap.opView | Bootstrap.opUpdateCert | Bootstrap.opBootstrap =>
        fun _ => (Bootstrap.mkConfig "thing-1", None)
    | Bootstrap.opList => fun _ => (Bootstrap.mkConfigsPage [], None)
    | _ => fun _ => None
    end.

Definition bootstrap_ko (e : GoError) : Bootstrap.Service :=
  fun op a => Outcome.bootstrap_failing op (bootstrap_ok op a) e.

(** Two calls of the users middleware. *)
Definition requests : list Users.Call :=
  [existT Users.Args Users.opRegisterClient (Example.ctx, "token", alice);
   existT Users.Args Users.opIssueToken
          (Example.ctx, "admin@example.com", "12345678", "domain-1")].

(** A run of the cassandra writer in which no instance ID is configured and
    none can be generated, and one in which every step succeeds. *)
Definition no_instance_id : Main.Externals :=
  Main.mkExternals
    (Main.mkConfig "info" "/config.toml" "nats://localhost:4222"
                   "http://jaeger:14268/api/traces" true EmptyString 0)
    None None (EmptyString, Some (errors_New "no entropy")) None None None None None None None.

Definition all_well : Main.Externals :=
  Main.mkExternals
    (Main.mkConfig "info" "/config.toml" "nats://localhost:4222"
                   "http://jaeger:14268/api/traces" true "writer-1" 0)
    None None (EmptyString, None) None None None None None None None.

End Samples.

(** * Properties *)

(** ** Running the logger and the monad *)

Ltac split_args a :=
  repeat match type of a with
         | (_ * _)%type => let x := fresh "x" in destruct a as [a x]
         end.

Ltac facets :=
  repeat match goal with
         | |- _ /\ _ => split
         | |- forall _, _ => intro
         | H : Some _ = Some _ |- _ => inversion H; subst; clear H
         | H : None = Some _ |- _ => discriminate H
         | H : In _ _ |- _ => simpl in H
         | H : _ \/ _ |- _ => destruct H
         | H : False |- _ => contradiction H
         | H : (_, _) = (_, _) |- _ => inversion H; subst; clear H
         | |- _ => reflexivity
         end.

Section LoggerFacts.
Context {C : Type}.
Implicit Types (l : Logger.Logger) (w : world C).

Lemma log_run l lvl msg args w :
  Logger.log l lvl msg args w
  = (Returned tt, Logger.logged l (slog.LogCall lvl msg args) w).
Proof.
  unfold Logger.log, Logger.logged, bind, emit, time_Now, write, ret; simpl.
  destruct (Logger.HandlerLevel l <=? lvl)%Z; reflexivity.
Qed.

Lemma Warn_run l msg args w :
  Logger.Warn l msg args w
  = (Returned tt, Logger.logged l (slog.LogCall slog.LevelWarn msg args) w).
Proof. apply log_run. Qed.

Lemma Info_run l msg args w :
  Logger.Info l msg args w
  = (Returned tt, Logger.logged l (slog.LogCall slog.LevelInfo msg args) w).
Proof. apply log_run. Qed.

Lemma invocations_app (t t' : list (event C)) :
  invocations (t ++ t') = (invocations t ++ invocations t')%list.
Proof.
  induction t as [|[c|c] t IH]; simpl; [reflexivity| |assumption].
  now rewrite IH.
Qed.

Lemma logcalls_app (t t' : list (event C)) :
  logcalls (t ++ t') = (logcalls t ++ logcalls t')%list.
Proof.
  induction t as [|[c|c] t IH]; simpl; [reflexivity|assumption|].
  now rewrite IH.
Qed.

(** A logged call after a call of the service leaves one invocation and one
    logger call in the trace. *)
Lemma logged_called_invocations l lc w c :
  invocations (trace (Logger.logged l lc (called w c)))
  = (invocations (trace w) ++ [c])%list.
Proof.
  unfold Logger.logged, called; simpl.
  rewrite !invocations_app; simpl.
  now rewrite !app_nil_r.
Qed.

Lemma logged_called_logcalls l lc w c :
  logcalls (trace (Logger.logged l lc (called w c)))
  = (logcalls (trace w) ++ [lc])%list.
Proof.
  unfold Logger.logged, called; simpl.
  rewrite !logcalls_app; simpl.
  now rewrite !app_nil_r.
Qed.

(** The sink gets the record of a logged call when the handler's level
    allows it, and nothing otherwise. *)
Lemma logged_sink l lc w :
  sink (Logger.logged l lc w)
  = (sink w ++ if (Logger.HandlerLevel l <=? slog.call_level lc)%Z
               then [slog.NewRecord (clock w (reads w)) (slog.call_level lc)
                                    (slog.call_msg lc) (slog.call_attrs lc)]
               else [])%list.
Proof.
  unfold Logger.logged; simpl.
  destruct (Logger.HandlerLevel l <=? slog.call_level lc)%Z;
    [reflexivity | now rewrite app_nil_r].
Qed.
End LoggerFacts.

Ltac run_go :=
  unfold defer, bind, deref, panic, emit, time_Now, time_Since, ret;
  cbn -[Logger.Warn Logger.Info];
  rewrite ?Warn_run, ?Info_run.

Ltac unfold_users :=
  unfold Users.RegisterClient, Users.IssueToken, Users.RefreshToken, Users.ViewClient,
    Users.ViewProfile, Users.ListClients, Users.UpdateClient, Users.UpdateClientTags,
    Users.UpdateClientIdentity, Users.UpdateClientSecret, Users.GenerateResetToken,
    Users.ResetSecret, Users.SendPasswordReset, Users.UpdateClientRole, Users.EnableClient,
    Users.DisableClient, Users.ListMembers, Users.Identify, Users.invoke.

Ltac unfold_bootstrap :=
  unfold Bootstrap.Add, Bootstrap.View, Bootstrap.Update, Bootstrap.UpdateCert,
    Bootstrap.UpdateConnections, Bootstrap.List, Bootstrap.Remove, Bootstrap.Bootstrap,
    Bootstrap.ChangeState, Bootstrap.UpdateChannelHandler, Bootstrap.RemoveConfigHandler,
    Bootstrap.RemoveChannelHandler, Bootstrap.DisconnectThingHandler, Bootstrap.invoke.

Ltac unfold_certs :=
  unfold Certs.IssueCert, Certs.ListCerts, Certs.ListSerials, Certs.ViewCert,
    Certs.RevokeCert, Certs.invoke.

Ltac unfold_handler :=
  unfold Handler.AuthConnect, Handler.AuthPublish, Handler.AuthSubscribe, Handler.Connect,
    Handler.Disconnect, Handler.Publish, Handler.Subscribe, Handler.Unsubscribe,
    Handler.logAction.

(** ** The four middlewares, operation by operation *)
Section Middlewares.
Context `{Platform}.

(** Every operation of the users middleware whose result is not a nil
    pointer calls the service once, hands one record to the logger and
    returns what the service returned. *)
Lemma users_method_run (lm : Users.loggingMiddleware) op (a : Users.Args op) w :
  Users.nil_result op (Users.svc lm op a) = false ->
  exists lc,
    Users.method lm op a w
      = (Returned (Users.svc lm op a),
         Logger.logged (Users.logger lm) lc (called w (existT _ op a))) /\
    slog.call_level lc = Contract.level_of (Users.err_of op (Users.svc lm op a)) /\
    slog.call_msg lc
      = Contract.message_of (Users.name op) (Users.err_of op (Users.svc lm op a)) /\
    slog.lookup_key "duration" (slog.call_attrs lc)
      = Some (slog.StringValue (Duration_String (elapsed w))) /\
    slog.has_key "error" (slog.call_attrs lc)
      = Contract.failed (Users.err_of op (Users.svc lm op a)) /\
    (forall e, Users.err_of op (Users.svc lm op a) = Some e ->
               Contract.last_attr (slog.call_attrs lc)
               = Some (slog.mkAttr "error" (slog.KindAny (slog.AnyError e)))) /\
    (forall path v, In (path, v) (Users.result_fields op (Users.svc lm op a)) ->
                    slog.lookup_path path (slog.call_attrs lc) = Some v).
Proof.
  intros Hnil.
  destruct op; simpl in a; split_args a; simpl in Hnil |- *.
  all: unfold_users; run_go.
  all: match goal with
       | |- context [Users.svc ?l ?o ?a] =>
           destruct (Users.svc l o a) as [r e] || destruct (Users.svc l o a) as [e|]
       end.
  all: try match type of Hnil with
           | context [match fst (?r, _) with _ => _ end] =>
               destruct r; [|discriminate Hnil]
           end.
  all: try match goal with e : error |- _ => destruct e end.
  all: cbn -[Logger.Warn Logger.Info].
  all: try match goal with
           | |- context [negb (String.eqb ?x ?y)] => destruct (String.eqb x y)
           end.
  all: cbn -[Logger.Warn Logger.Info]; rewrite ?Warn_run, ?Info_run.
  all: eexists; split; [reflexivity|].
  all: cbn; facets.
Qed.

(** The same for the bootstrap middleware, none of whose results is a
    pointer. *)
Lemma bootstrap_method_run (lm : Bootstrap.loggingMiddleware) op (a : Bootstrap.Args op) w :
  exists lc,
    Bootstrap.method lm op a w
      = (Returned (Bootstrap.svc lm op a),
         Logger.logged (Bootstrap.logger lm) lc (called w (existT _ op a))) /\
    slog.call_level lc = Contract.level_of (Bootstrap.err_of op (Bootstrap.svc lm op a)) /\
    slog.call_msg lc
      = Contract.message_of (Bootstrap.name op) (Bootstrap.err_of op (Bootstrap.svc lm op a)) /\
    slog.lookup_key "duration" (slog.call_attrs lc)
      = Some (slog.StringValue (Duration_String (elapsed w))) /\
    slog.has_key "error" (slog.call_attrs lc)
      = Contract.failed (Bootstrap.err_of op (Bootstrap.svc lm op a)) /\
    (forall e, Bootstrap.err_of op (Bootstrap.svc lm op a) = Some e ->
               Contract.last_attr (slog.call_attrs lc)
               = Some (slog.mkAttr "error" (slog.KindAny (slog.AnyError e)))) /\
    (forall path v, In (path, v) (Bootstrap.result_fields op (Bootstrap.svc lm op a)) ->
                    slog.lookup_path path (slog.call_attrs lc) = Some v).
Proof.
  destruct op; simpl in a; split_args a; simpl.
  all: unfold_bootstrap; run_go.
  all: match goal with
       | |- context [Bootstrap.svc ?l ?o ?a] =>
           destruct (Bootstrap.svc l o a) as [r e] || destruct (Bootstrap.svc l o a) as [e|]
       end.
  all: try match goal with e : error |- _ => destruct e end.
  all: cbn -[Logger.Warn Logger.Info]; rewrite ?Warn_run, ?Info_run.
  all: eexists; split; [reflexivity|].
  all: cbn; facets.
Qed.

(** The certs middleware: its messages are its own, and on failure its
    record holds the error's text and the duration only. *)
Lemma certs_method_run (lm : Certs.loggingMiddleware) op (a : Certs.Args op) w :
  exists lc,
    Certs.method lm op a w
      = (Returned (Certs.svc lm op a),
         Logger.logged (Certs.logger lm) lc (called w (existT _ op a))) /\
    slog.call_level lc = Contract.level_of (Certs.err_of op (Certs.svc lm op a)) /\
    slog.call_msg lc = Certs.message_of op (Certs.err_of op (Certs.svc lm op a)) /\
    slog.lookup_key "duration" (slog.call_attrs lc)
      = Some (slog.StringValue (Duration_String (elapsed w))) /\
    slog.has_key "error" (slog.call_attrs lc)
      = Contract.failed (Certs.err_of op (Certs.svc lm op a)) /\
    (forall e, Certs.err_of op (Certs.svc lm op a) = Some e ->
               slog.call_attrs lc
               = [slog.mkAttr "error" (slog.StringValue (Error e));
                  slog.mkAttr "duration" (slog.StringValue (Duration_String (elapsed w)))]).
Proof.
  destruct op; simpl in a; split_args a; simpl.
  all: unfold_certs; run_go.
  all: match goal with
       | |- context [Certs.svc ?l ?o ?a] => destruct (Certs.svc l o a) as [r [e|]]
       end.
  all: cbn -[Logger.Warn Logger.Info]; rewrite ?Warn_run, ?Info_run.
  all: eexists; split; [reflexivity|].
  all: cbn; facets.
Qed.

(** The world once the session-handler middleware has read the clock
    twice: it makes no call in between. *)
Lemma handler_method_run (lm : Handler.loggingMiddleware) op (a : Handler.Args op) w :
  (exists lc,
      Handler.method lm op a w
      = (Returned None,
         Logger.logged (Handler.logger lm) lc
           (mkWorld (clock w) (S (S (reads w))) (trace w) (sink w))) /\
      slog.call_level lc = slog.LevelInfo /\
      slog.has_key "error" (slog.call_attrs lc) = false)
  \/ (exists reason, Handler.method lm op a w = (Panicked reason, w)).
Proof.
  destruct op; simpl in a; split_args a; simpl.
  all: unfold_handler; run_go.
  all: repeat match goal with
         | x : option _ |- _ => destruct x
         end.
  all: cbn -[Logger.Warn Logger.Info]; rewrite ?Warn_run, ?Info_run.
  all: try (left; eexists; split; [reflexivity|]; cbn; facets).
  all: right; eexists; destruct w; reflexivity.
Qed.

End Middlewares.

(** ** The contract of an instrumented call *)

Lemma lookup_key_has_key (key : string) (attrs : list slog.Attr) (v : slog.Value) :
  slog.lookup_key key attrs = Some v -> slog.has_key key attrs = true.
Proof.
  induction attrs as [|[k x] attrs IH]; simpl; [discriminate|].
  destruct (String.eqb key k); [reflexivity | exact IH].
Qed.

Section ContractFacts.
Context `{Platform}.

(** Every operation of the users middleware keeps the contract, unless the
    result of a token operation is a nil pointer. *)
Lemma users_observes (lm : Users.loggingMiddleware) op (a : Users.Args op) w :
  Users.nil_result op (Users.svc lm op a) = false ->
  Contract.observes (Users.method lm op a) w (existT _ op a) (Users.svc lm op a)
                    (Users.err_of op (Users.svc lm op a)).
Proof.
  intros Hnil.
  destruct (users_method_run lm op a w Hnil) as (lc & Hrun & Hl & _ & Hd & He & _).
  exists lc. rewrite Hrun. cbn [fst snd].
  rewrite logged_called_invocations, logged_called_logcalls.
  repeat split; auto. now apply lookup_key_has_key in Hd.
Qed.

(** Every operation of the bootstrap middleware keeps the contract. *)
Lemma bootstrap_observes (lm : Bootstrap.loggingMiddleware) op (a : Bootstrap.Args op) w :
  Contract.observes (Bootstrap.method lm op a) w (existT _ op a) (Bootstrap.svc lm op a)
                    (Bootstrap.err_of op (Bootstrap.svc lm op a)).
Proof.
  destruct (bootstrap_method_run lm op a w) as (lc & Hrun & Hl & _ & Hd & He & _).
  exists lc. rewrite Hrun. cbn [fst snd].
  rewrite logged_called_invocations, logged_called_logcalls.
  repeat split; auto. now apply lookup_key_has_key in Hd.
Qed.

(** Every operation of the certs middleware keeps the contract. *)
Lemma certs_observes (lm : Certs.loggingMiddleware) op (a : Certs.Args op) w :
  Contract.observes (Certs.method lm op a) w (existT _ op a) (Certs.svc lm op a)
                    (Certs.err_of op (Certs.svc lm op a)).
Proof.
  destruct (certs_method_run lm op a w) as (lc & Hrun & Hl & _ & Hd & He & _).
  exists lc. rewrite Hrun. cbn [fst snd].
  rewrite logged_called_invocations, logged_called_logcalls.
  repeat split; auto. now apply lookup_key_has_key in Hd.
Qed.

(** With a handler that lets Info through, the one record of an
    instrumented call is one line of the sink. *)
Lemma users_writes_one_line (lm : Users.loggingMiddleware) op (a : Users.Args op) w :
  Users.nil_result op (Users.svc lm op a) = false ->
  (Logger.HandlerLevel (Users.logger lm) <=? slog.LevelInfo)%Z = true ->
  exists r, sink (snd (Users.method lm op a w)) = (sink w ++ [r])%list.
Proof.
  intros Hnil Hlevel.
  destruct (users_method_run lm op a w Hnil) as (lc & Hrun & Hl & _).
  rewrite Hrun. cbn [snd]. rewrite logged_sink, Hl.
  assert (Hle : (Logger.HandlerLevel (Users.logger lm)
                 <=? Contract.level_of (Users.err_of op (Users.svc lm op a)))%Z = true).
  { apply Z.leb_le in Hlevel. apply Z.leb_le.
    destruct (Users.err_of op (Users.svc lm op a)); simpl;
      unfold slog.LevelWarn, slog.LevelInfo in *; lia. }
  rewrite Hle. eexists. reflexivity.
Qed.

End ContractFacts.

(** The end-to-end example of the specification on [RegisterClient], with a
    handler at level Info and a call that takes 250ns: a success is one
    Info line with the new client's name and id, a failure one Warn line
    with the zero name and id and the error. *)
Lemma RegisterClient_end_to_end :
  let info := Logger.NewJSONLogger slog.LevelInfo in
  let client := Users.mkClient "alice" "u-1" [] [] (Users.mkRole "user") in
  let created : Users.Service :=
    fun op => match op with
              | Users.opRegisterClient => fun _ => (client, None)
              | other => Users.fails Example.errNotFound other
              end in
  sink (snd (@Users.RegisterClient Example.platform (Users.LoggingMiddleware created info)
               Example.ctx "token" client Example.start))
  = [slog.NewRecord 500 slog.LevelInfo "Register client completed successfully"
       [slog.mkAttr "duration" (slog.StringValue "250ns");
        slog.mkAttr "user"
          (slog.GroupValue [slog.mkAttr "name" (slog.StringValue "alice");
                            slog.mkAttr "id" (slog.StringValue "u-1")])]]
  /\ sink (snd (@Users.RegisterClient Example.platform
                  (Users.LoggingMiddleware (Users.fails Example.errNotFound) info)
                  Example.ctx "token" client Example.start))
  = [slog.NewRecord 500 slog.LevelWarn "Register client failed to complete successfully"
       [slog.mkAttr "duration" (slog.StringValue "250ns");
        slog.mkAttr "user"
          (slog.GroupValue [slog.mkAttr "name" (slog.StringValue EmptyString);
                            slog.mkAttr "id" (slog.StringValue EmptyString)]);
        slog.mkAttr "error" (slog.KindAny (slog.AnyError Example.errNotFound))]].
Proof. split; reflexivity. Qed.

(** ** The session handler's middleware and the wrapped handler *)

(** No operation of the session handler's middleware reaches the wrapped
    handler, and none returns an error. *)
Lemma handler_never_invokes `{Platform} (lm : Handler.loggingMiddleware) op
  (a : Handler.Args op) w :
  invocations (trace (snd (Handler.method lm op a w))) = invocations (trace w)
  /\ (forall e, fst (Handler.method lm op a w) <> Returned (Some e)).
Proof.
  destruct (handler_method_run lm op a w) as [(lc & -> & _) | (reason & ->)]; simpl.
  - rewrite invocations_app; simpl. rewrite app_nil_r. split; [reflexivity | discriminate].
  - split; [reflexivity | discriminate].
Qed.

(** C1, at the input where it fails: the wrapped session handler would
    answer [AuthConnect] with the error [e]; the middleware never calls it,
    and returns nil to its caller. *)
Theorem handler_middleware_drops_the_call `{Platform} (lg : Logger.Logger) (e : GoError)
  (ctx : Context) (w : world Handler.Call) :
  let lm := Handler.LoggingMiddleware (Handler.fails e) lg in
  Handler.svc lm Handler.opAuthConnect ctx = Some e
  /\ fst (Handler.AuthConnect lm ctx w) = Returned None
  /\ invocations (trace (snd (Handler.AuthConnect lm ctx w))) = invocations (trace w).
Proof.
  intros lm. split; [reflexivity|].
  unfold_handler; run_go.
  split; [reflexivity|]. simpl.
  rewrite invocations_app; simpl. now rewrite app_nil_r.
Qed.

(** ** The token operations and a nil token *)

(** C2, at the input where it fails: when the wrapped service returns a nil
    token with an error, [IssueToken] and [RefreshToken] panic in their
    deferred closure instead of returning the error. *)
Theorem token_methods_panic_on_nil_token `{Platform} (lg : Logger.Logger) (e : GoError)
  (ctx : Context) (identity secret refreshToken domainID : string)
  (w : world Users.Call) :
  let lm := Users.LoggingMiddleware (Users.fails e) lg in
  fst (Users.IssueToken lm ctx identity secret domainID w)
    = Panicked "runtime error: invalid memory address or nil pointer dereference"
  /\ fst (Users.RefreshToken lm ctx refreshToken domainID w)
    = Panicked "runtime error: invalid memory address or nil pointer dereference".
Proof. intros lm. split; reflexivity. Qed.

(** C3, at the input where it fails: [IssueToken] on a service that fails
    with a nil token calls the service, which returns the error [e], and no
    record, Warn-level or other, reaches the logger or the sink. *)
Theorem failed_IssueToken_emits_no_record `{Platform} (lg : Logger.Logger) (e : GoError)
  (ctx : Context) (identity secret domainID : string) (w : world Users.Call) :
  let lm := Users.LoggingMiddleware (Users.fails e) lg in
  let w' := snd (Users.IssueToken lm ctx identity secret domainID w) in
  Users.svc lm Users.opIssueToken (ctx, identity, secret, domainID) = (None, Some e)
  /\ invocations (trace w')
     = (invocations (trace w)
        ++ [existT _ Users.opIssueToken (ctx, identity, secret, domainID)])%list
  /\ logcalls (trace w') = logcalls (trace w)
  /\ sink w' = sink w.
Proof.
  intros lm w'. subst w'. split; [reflexivity|].
  unfold_users; run_go.
  rewrite invocations_app, logcalls_app; simpl.
  now rewrite app_nil_r.
Qed.

(** C4, at the input where it fails: the call of [RefreshToken] on a
    service that fails with a nil token adds the call of the service to the
    trace and nothing else: zero records for an intercepted call. *)
Theorem failed_RefreshToken_leaves_no_record `{Platform} (lg : Logger.Logger) (e : GoError)
  (ctx : Context) (refreshToken domainID : string) (w : world Users.Call) :
  let lm := Users.LoggingMiddleware (Users.fails e) lg in
  let w' := snd (Users.RefreshToken lm ctx refreshToken domainID w) in
  trace w'
  = (trace w ++ [Invoke (existT _ Users.opRefreshToken (ctx, refreshToken, domainID))])%list
  /\ sink w' = sink w.
Proof. intros lm w'. split; reflexivity. Qed.

(** ** Fields drawn from the result *)

(** C5 as stated fails: [IssueToken] on a service that fails with an
    allocated token whose [AccessType] is empty emits one Warn-level record,
    and the field [access_type], drawn from the result, is not in it. *)
Lemma empty_access_type_is_omitted_on_failure :
  let lm := Users.LoggingMiddleware (Users.fails_with_token Example.errNotFound)
                                    Example.verbose in
  exists lc,
    logcalls (trace (snd (@Users.IssueToken Example.platform lm Example.ctx
                            "admin@example.com" "12345678" "domain-1" Example.start)))
    = [lc]
    /\ slog.call_level lc = slog.LevelWarn
    /\ slog.has_key "error" (slog.call_attrs lc) = true
    /\ slog.lookup_key "access_type" (slog.call_attrs lc) = None.
Proof. eexists. repeat split; reflexivity. Qed.

(** C5, amended: for every operation of the users and of the bootstrap
    middleware, the fields of its record that are drawn from the result are
    in the record whatever the outcome, with the value the result holds (the
    zero value when the service assigned none); the field [access_type] of
    [IssueToken] and [RefreshToken] is in the record exactly when the
    returned token's [AccessType] is not empty. *)
Theorem result_fields_kept_on_failure `{Platform} :
  (forall (lm : Users.loggingMiddleware) op (a : Users.Args op) w path v,
      In (path, v) (Users.result_fields op (Users.svc lm op a)) ->
      exists lc,
        logcalls (trace (snd (Users.method lm op a w))) = (logcalls (trace w) ++ [lc])%list
        /\ slog.lookup_path path (slog.call_attrs lc) = Some v)
  /\ (forall (lm : Bootstrap.loggingMiddleware) op (a : Bootstrap.Args op) w path v,
      In (path, v) (Bootstrap.result_fields op (Bootstrap.svc lm op a)) ->
      exists lc,
        logcalls (trace (snd (Bootstrap.method lm op a w))) = (logcalls (trace w) ++ [lc])%list
        /\ slog.lookup_path path (slog.call_attrs lc) = Some v)
  /\ (forall (lm : Users.loggingMiddleware) op (a : Users.Args op) w tok,
      Users.token_of op (Users.svc lm op a) = Some tok ->
      exists lc,
        logcalls (trace (snd (Users.method lm op a w))) = (logcalls (trace w) ++ [lc])%list
        /\ slog.lookup_key "access_type" (slog.call_attrs lc)
           = if String.eqb (Users.AccessType tok) EmptyString
             then None
             else Some (slog.StringValue (Users.AccessType tok))).
Proof.
  split; [|split].
  - intros lm op a w path v Hin.
    assert (Hnil : Users.nil_result op (Users.svc lm op a) = false).
    { destruct op; try reflexivity; simpl in Hin; contradiction. }
    destruct (users_method_run lm op a w Hnil) as (lc & Hrun & _ & _ & _ & _ & _ & Hf).
    exists lc. rewrite Hrun. split; [apply logged_called_logcalls | now apply Hf].
  - intros lm op a w path v Hin.
    destruct (bootstrap_method_run lm op a w) as (lc & Hrun & _ & _ & _ & _ & _ & Hf).
    exists lc. rewrite Hrun. split; [apply logged_called_logcalls | now apply Hf].
  - intros lm op a w tok Htok.
    destruct op; try discriminate Htok; simpl in a; split_args a; simpl in *.
    all: unfold_users; run_go.
    all: match goal with
         | |- context [Users.svc ?l ?o ?a] => destruct (Users.svc l o a) as [r [e|]]
         end.
    all: simpl in Htok; subst r.
    all: cbn -[Logger.Warn Logger.Info].
    all: destruct (String.eqb (Users.AccessType tok) EmptyString).
    all: cbn -[Logger.Warn Logger.Info]; rewrite ?Warn_run, ?Info_run.
    all: eexists; split; [apply logged_called_logcalls | reflexivity].
Qed.

(** A failed [RegisterClient] that returns the zero [Client] and a failed
    [Add] that returns the zero [Config]: the group [user] of the first
    record holds the empty [id], the second record the empty [thing_id]. *)
Lemma result_fields_kept_on_failure_witness :
  let users := Users.LoggingMiddleware (Users.fails Example.errNotFound) Example.verbose in
  let bootstrap :=
    Bootstrap.LoggingMiddleware (Bootstrap.fails Example.errNotFound) Example.verbose in
  (exists lc,
      logcalls (trace (snd (@Users.method Example.platform users Users.opRegisterClient
                              (Example.ctx, "token", Users.zeroClient) Example.start)))
      = (logcalls (trace (@Example.start Users.Call)) ++ [lc])%list
      /\ slog.lookup_path ["user"; "id"] (slog.call_attrs lc)
         = Some (slog.StringValue EmptyString))
  /\ (exists lc,
      logcalls (trace (snd (@Bootstrap.method Example.platform bootstrap Bootstrap.opAdd
                              (Example.ctx, "token", Bootstrap.mkConfig "thing-1")
                              Example.start)))
      = (logcalls (trace (@Example.start Bootstrap.Call)) ++ [lc])%list
      /\ slog.lookup_path ["thing_id"] (slog.call_attrs lc)
         = Some (slog.StringValue EmptyString)).
Proof.
  intros users bootstrap.
  destruct (@result_fields_kept_on_failure Example.platform) as (Husers & Hbootstrap & _).
  split.
  - apply (Husers users Users.opRegisterClient). simpl. right. left. reflexivity.
  - apply (Hbootstrap bootstrap Bootstrap.opAdd). simpl. left. reflexivity.
Defined.

(** ** Severity and message *)

(** C6 as stated fails: the record of a failed [IssueCert] is Warn-level
    and its message is not of the form "<Operation> failed to complete
    successfully". *)
Lemma failed_IssueCert_message :
  let lm := Certs.LoggingMiddleware (Certs.fails Example.errNotFound) Example.verbose in
  exists lc,
    logcalls (trace (snd (@Certs.IssueCert Example.platform lm Example.ctx
                            "token" "thing-1" "1h" Example.start)))
    = [lc]
    /\ slog.call_level lc = slog.LevelWarn
    /\ slog.call_msg lc = "Method issue_cert completed with error."
    /\ Contract.ends_with (slog.call_msg lc) " failed to complete successfully" = false.
Proof. eexists. repeat split; reflexivity. Qed.

(** C6, amended: for every operation of the users middleware (the result
    of a token operation not being a nil pointer) and of the bootstrap
    middleware, the one record is emitted through [Warn] with the message
    "<Operation> failed to complete successfully" and a last field [error]
    when the wrapped call returns an error, and through [Info] with
    "<Operation> completed successfully" and no field [error] otherwise; for
    every operation of the certs middleware it is emitted through [Warn]
    with "Method <operation> completed with error." and a field [error]
    holding the error's text, and through [Info] with "Method <operation>
    completed without errors." otherwise. *)
Theorem severity_and_message_by_error_presence `{Platform} :
  (forall (lm : Users.loggingMiddleware) op (a : Users.Args op) w,
      Users.nil_result op (Users.svc lm op a) = false ->
      let err := Users.err_of op (Users.svc lm op a) in
      exists lc,
        logcalls (trace (snd (Users.method lm op a w))) = (logcalls (trace w) ++ [lc])%list
        /\ slog.call_level lc = Contract.level_of err
        /\ slog.call_msg lc = Contract.message_of (Users.name op) err
        /\ slog.has_key "error" (slog.call_attrs lc) = Contract.failed err
        /\ (forall e, err = Some e ->
                      Contract.last_attr (slog.call_attrs lc)
                      = Some (slog.mkAttr "error" (slog.KindAny (slog.AnyError e)))))
  /\ (forall (lm : Bootstrap.loggingMiddleware) op (a : Bootstrap.Args op) w,
      let err := Bootstrap.err_of op (Bootstrap.svc lm op a) in
      exists lc,
        logcalls (trace (snd (Bootstrap.method lm op a w))) = (logcalls (trace w) ++ [lc])%list
        /\ slog.call_level lc = Contract.level_of err
        /\ slog.call_msg lc = Contract.message_of (Bootstrap.name op) err
        /\ slog.has_key "error" (slog.call_attrs lc) = Contract.failed err
        /\ (forall e, err = Some e ->
                      Contract.last_attr (slog.call_attrs lc)
                      = Some (slog.mkAttr "error" (slog.KindAny (slog.AnyError e)))))
  /\ (forall (lm : Certs.loggingMiddleware) op (a : Certs.Args op) w,
      let err := Certs.err_of op (Certs.svc lm op a) in
      exists lc,
        logcalls (trace (snd (Certs.method lm op a w))) = (logcalls (trace w) ++ [lc])%list
        /\ slog.call_level lc = Contract.level_of err
        /\ slog.call_msg lc = Certs.message_of op err
        /\ slog.has_key "error" (slog.call_attrs lc) = Contract.failed err
        /\ (forall e, err = Some e ->
                      slog.lookup_key "error" (slog.call_attrs lc)
                      = Some (slog.StringValue (Error e)))).
Proof.
  split; [|split].
  - intros lm op a w Hnil err.
    destruct (users_method_run lm op a w Hnil) as (lc & Hrun & Hl & Hm & _ & He & Hlast & _).
    exists lc. rewrite Hrun. split; [apply logged_called_logcalls | auto].
  - intros lm op a w err.
    destruct (bootstrap_method_run lm op a w) as (lc & Hrun & Hl & Hm & _ & He & Hlast & _).
    exists lc. rewrite Hrun. split; [apply logged_called_logcalls | auto].
  - intros lm op a w err.
    destruct (certs_method_run lm op a w) as (lc & Hrun & Hl & Hm & _ & He & Hattrs).
    exists lc. rewrite Hrun. split; [apply logged_called_logcalls|].
    repeat split; auto.
    intros e Herr. rewrite (Hattrs e Herr). reflexivity.
Qed.

(** A failed [RefreshToken] that returns an allocated token: one Warn-level
    record with the failure message of the operation. *)
Lemma severity_and_message_by_error_presence_witness :
  let lm := Users.LoggingMiddleware (Users.fails_with_token Example.errNotFound)
                                    Example.verbose in
  exists lc,
    logcalls (trace (snd (@Users.method Example.platform lm Users.opRefreshToken
                            (Example.ctx, "refresh", "domain-1") Example.start)))
    = (logcalls (trace (@Example.start Users.Call)) ++ [lc])%list
    /\ slog.call_level lc = slog.LevelWarn
    /\ slog.call_msg lc = "Refresh token failed to complete successfully"
    /\ slog.has_key "error" (slog.call_attrs lc) = true
    /\ (forall e, Some Example.errNotFound = Some e ->
                  Contract.last_attr (slog.call_attrs lc)
                  = Some (slog.mkAttr "error" (slog.KindAny (slog.AnyError e)))).
Proof.
  intros lm.
  apply (proj1 (@severity_and_message_by_error_presence Example.platform)
               lm Users.opRefreshToken (Example.ctx, "refresh", "domain-1") Example.start).
  reflexivity.
Defined.

(** ** The loggers *)

Section Loggers.
Context `{Platform} {C : Type}.
Implicit Types (w : world C).

(** [Logger.Log] through a handler at level Debug writes the record, for
    each of the four named levels. *)
Lemma sLogger_writes (ctx : Context) (lvl : slog.Level) (msg : string)
  (args : list slog.GoAny) w :
  (slog.LevelDebug <=? lvl)%Z = true ->
  Logger.Log_ (Logger.NewJSONLogger slog.LevelDebug) ctx lvl msg args w
  = (Returned tt,
     mkWorld (clock w) (S (reads w))
             (trace w ++ [Log (slog.LogCall lvl msg args)])
             (sink w ++ [slog.NewRecord (clock w (reads w)) lvl msg
                                        (slog.argsToAttrSlice args)])).
Proof.
  intros Hle. unfold Logger.Log_. rewrite log_run.
  unfold Logger.logged; simpl. now rewrite Hle.
Qed.

(** [New] on a text that parses builds the logger with the parsed
    threshold and a handler that lets every level through. *)
Lemma New_accepts (text : string) (threshold : Level.Level) w :
  Level.parse text = Some threshold ->
  slogger.New text w
  = (Returned (Some (slogger.mkLogger (Logger.NewJSONLogger slog.LevelDebug) threshold),
               None), w).
Proof.
  intros Hparse. unfold slogger.New, Level.UnmarshalText. now rewrite Hparse.
Qed.

Lemma New_valid (threshold : Level.Level) w :
  slogger.New (Level.String_ threshold) w
  = (Returned (Some (slogger.mkLogger (Logger.NewJSONLogger slog.LevelDebug) threshold),
               None), w).
Proof. apply New_accepts. destruct threshold; reflexivity. Qed.

(** [New] on a text that does not parse fails with the diagnostic, whatever
    the clock says. *)
Lemma New_rejects (text : string) w :
  Level.parse text = None ->
  slogger.New text w
  = (Returned (None,
               Some (fmt_Errorf slogger.New_format
                       [Error ErrInvalidLogLevel; text; time_RFC3339Nano])), w).
Proof.
  intros Hparse. unfold slogger.New, Level.UnmarshalText. now rewrite Hparse.
Qed.

(** C7: an operation of the logger whose level is below the configured
    threshold writes nothing to the sink, and one at or above it writes
    exactly one record; this holds for the logger of logger/slogger.go built
    by [New] from the text of any level, and for the four severity methods
    of the [*slog.Logger] that logger/logger.go builds, whatever the level
    of its handler. *)
Theorem logger_level_gate :
  (forall (threshold op : Level.Level) (ctx : Context) (msg : string) w,
      exists l rs,
        slogger.New (Level.String_ threshold) w = (Returned (Some l, None), w)
        /\ sink (snd (slogger.operation op l ctx msg w)) = (sink w ++ rs)%list
        /\ length rs = if Nat.ltb (Level.rank op) (Level.rank threshold) then 0 else 1)
  /\ (forall (t : slog.Level) (m : Logger.Method) (msg : string)
             (args : list slog.GoAny) w,
      exists rs,
        sink (snd (Logger.call (Logger.NewJSONLogger t) m msg args w)) = (sink w ++ rs)%list
        /\ length rs = if (Logger.method_level m <? t)%Z then 0 else 1).
Proof.
  split.
  - intros threshold op ctx msg w.
    exists (slogger.mkLogger (Logger.NewJSONLogger slog.LevelDebug) threshold).
    assert (Hgate : exists rs,
               sink (snd (slogger.operation op
                            (slogger.mkLogger (Logger.NewJSONLogger slog.LevelDebug) threshold)
                            ctx msg w)) = (sink w ++ rs)%list
               /\ length rs = if Nat.ltb (Level.rank op) (Level.rank threshold) then 0 else 1).
    { destruct op, threshold;
        cbn -[Logger.Log_];
        unfold slogger.Debug, slogger.Info, slogger.Warn, slogger.Error;
        cbn -[Logger.Log_];
        rewrite ?sLogger_writes by reflexivity;
        first [ exists []; split; [cbn; now rewrite app_nil_r | reflexivity]
              | eexists [_]; split; reflexivity ]. }
    destruct Hgate as (rs & Hsink & Hlen).
    exists rs. split; [apply New_valid | split; assumption].
  - intros t m msg args w.
    assert (Hcall : Logger.call (Logger.NewJSONLogger t) m msg args w
                    = (Returned tt,
                       Logger.logged (Logger.NewJSONLogger t)
                         (slog.LogCall (Logger.method_level m) msg args) w))
      by (destruct m; apply log_run).
    rewrite Hcall; cbn [snd]; rewrite logged_sink; cbn [Logger.HandlerLevel slog.call_level].
    rewrite Z.ltb_antisym.
    destruct (t <=? Logger.method_level m)%Z; eexists; split; reflexivity.
Qed.

(** With the threshold Warn, [Debug] and [Info] write nothing, [Warn] and
    [Error] write one line each. *)
Lemma threshold_Warn (ctx : Context) (msg : string) w :
  let l := slogger.mkLogger (Logger.NewJSONLogger slog.LevelDebug) Level.Warn in
  sink (snd (slogger.Debug l ctx msg w)) = sink w
  /\ sink (snd (slogger.Info l ctx msg w)) = sink w
  /\ sink (snd (slogger.Warn l ctx msg w))
     = (sink w ++ [slog.NewRecord (clock w (reads w)) slog.LevelWarn msg []])%list
  /\ sink (snd (slogger.Error l ctx msg w))
     = (sink w ++ [slog.NewRecord (clock w (reads w)) slog.LevelError msg []])%list.
Proof. intros l. repeat split; reflexivity. Qed.

Lemma append_assoc (a b c : string) : ((a ++ b) ++ c = a ++ (b ++ c))%string.
Proof. induction a as [|x a IH]; simpl; [reflexivity | now rewrite IH]. Qed.

(** The error of the constructors is the diagnostic with the keys [level],
    [message] and [ts]. *)
Lemma New_format_diagnostic (parse_error text ts : string) :
  fmt_Sprintf slogger.New_format [parse_error; text; ts]
  = Contract.diagnostic parse_error text ts.
Proof.
  unfold Contract.diagnostic, quoted, dq; simpl.
  rewrite !append_assoc. reflexivity.
Qed.

(** C8, at the input where it fails: on the text "verbose" [New] fails, and
    for every state of the clock the field [ts] of its error is the layout
    constant [time.RFC3339Nano], not a timestamp; the clock is not read. *)
Theorem New_error_ts_is_the_layout w :
  slogger.New "verbose" w
  = (Returned (None,
               Some (errors_New
                       (Contract.diagnostic (Error ErrInvalidLogLevel) "verbose"
                                            "2006-01-02T15:04:05.999999999Z07:00"))),
     w).
Proof.
  unfold slogger.New; simpl. unfold fmt_Errorf.
  now rewrite New_format_diagnostic.
Qed.

(** The constructor of logger/logger.go fails the same way; the logger it
    then returns is not nil: it is the one without handler. *)
Lemma logger_New_error (text : string) (e : GoError) w :
  slog.Level_parse text = inr e ->
  logger.New text w
  = (Returned (Some logger.zero,
               Some (errors_New (Contract.diagnostic (Error e) text time_RFC3339Nano))),
     w).
Proof.
  intros He. unfold logger.New, slog.Level_UnmarshalText. rewrite He. unfold fmt_Errorf.
  now rewrite New_format_diagnostic.
Qed.

(** C10, at the input where it fails: with the threshold Debug, [Debug]
    writes one record whose message is the literal "msg"; the text given by
    the caller is the value of a field with the key "!BADKEY". *)
Theorem Debug_record_message_is_msg (ctx : Context) (msg : string) w :
  sink (snd (slogger.Debug (slogger.mkLogger (Logger.NewJSONLogger slog.LevelDebug)
                                             Level.Debug) ctx msg w))
  = (sink w ++ [slog.NewRecord (clock w (reads w)) slog.LevelDebug "msg"
                               [slog.mkAttr "!BADKEY" (slog.StringValue msg)]])%list.
Proof. reflexivity. Qed.

(** The other three operations write the caller's message. *)
Lemma other_operations_write_the_message (op : Level.Level) (ctx : Context)
  (msg : string) w :
  op <> Level.Debug ->
  exists lvl,
    sink (snd (slogger.operation op
                 (slogger.mkLogger (Logger.NewJSONLogger slog.LevelDebug) Level.Debug)
                 ctx msg w))
    = (sink w ++ [slog.NewRecord (clock w (reads w)) lvl msg []])%list.
Proof. intros Hop. destruct op; [contradiction | | |]; eexists; reflexivity. Qed.

End Loggers.

(** ** Parsing a level *)













(** * Further properties of the sources *)

(** ** What reaches the records of the middlewares *)

Ltac split_two a b :=
  repeat match type of a with
         | (_ * _)%type =>
             let x := fresh "x" in let y := fresh "y" in
             destruct a as [a x]; destruct b as [b y]
         end.

Section Records.
Context `{Platform}.

(** When the result of a token operation is a nil pointer, the call panics
    once the service has answered and the clock was read again. *)
Lemma users_nil_run (lm : Users.loggingMiddleware) op (a : Users.Args op) w :
  Users.nil_result op (Users.svc lm op a) = true ->
  Users.method lm op a w
  = (Panicked "runtime error: invalid memory address or nil pointer dereference",
     called w (existT _ op a)).
Proof.
  intros Hnil.
  destruct op; simpl in Hnil; try discriminate Hnil; simpl in a; split_args a; simpl.
  all: unfold_users; run_go.
  all: match goal with
       | |- context [Users.svc ?l ?o ?a] => destruct (Users.svc l o a) as [[t|] e]
       end.
  all: try discriminate Hnil.
  all: reflexivity.
Qed.

(** X1: the record of an operation of the users middleware depends on the
    arguments of the call through the fields of [Inputs.users] only: two
    calls of an operation that agree on them and get the same answer from
    the service hand the same record to the logger and write the same line.
    The token, the secrets and the refresh token are not among them. *)
Theorem users_record_ignores_credentials (lm : Users.loggingMiddleware) op
  (a a' : Users.Args op) w :
  Inputs.users op a = Inputs.users op a' ->
  Users.svc lm op a = Users.svc lm op a' ->
  logcalls (trace (snd (Users.method lm op a w)))
  = logcalls (trace (snd (Users.method lm op a' w)))
  /\ sink (snd (Users.method lm op a w)) = sink (snd (Users.method lm op a' w)).
Proof.
  intros Hin Hsvc.
  destruct (Users.nil_result op (Users.svc lm op a)) eqn:Hnil.
  - rewrite (users_nil_run lm op a w Hnil).
    rewrite Hsvc in Hnil. rewrite (users_nil_run lm op a' w Hnil).
    unfold called; simpl. rewrite !logcalls_app; simpl. split; reflexivity.
  - revert Hin Hsvc Hnil.
    destruct op; simpl in a, a'; split_two a a'; simpl; intros Hin Hsvc Hnil.
    all: unfold_users; run_go.
    all: rewrite <- Hsvc.
    all: match goal with
         | |- context [Users.svc ?l ?o ?a] =>
             destruct (Users.svc l o a) as [r e] || destruct (Users.svc l o a) as [e|]
         end.
    all: try match type of Hnil with
             | context [match fst (?r, _) with _ => _ end] =>
                 destruct r; [|discriminate Hnil]
             end.
    all: try match goal with e : error |- _ => destruct e end.
    all: cbn -[Logger.Warn Logger.Info].
    all: try match goal with
             | |- context [negb (String.eqb ?x ?y)] => destruct (String.eqb x y)
             end.
    all: cbn -[Logger.Warn Logger.Info]; rewrite ?Warn_run, ?Info_run.
    all: cbn [snd]; rewrite !logged_sink; unfold Logger.logged, called; cbn.
    all: rewrite !logcalls_app; cbn.
    all: try (inversion Hin; subst).
    all: split; reflexivity.
Qed.

(** X2: every field that an operation of the users or of the bootstrap
    middleware draws from the arguments of the call is in its record with
    the argument's value, whether the wrapped call fails or not (for the
    users middleware, when the result of a token operation is not nil). *)
Theorem input_fields_are_logged :
  (forall (lm : Users.loggingMiddleware) op (a : Users.Args op) w path v,
      Users.nil_result op (Users.svc lm op a) = false ->
      In (path, v) (Inputs.users op a) ->
      exists lc,
        logcalls (trace (snd (Users.method lm op a w))) = (logcalls (trace w) ++ [lc])%list
        /\ slog.lookup_path path (slog.call_attrs lc) = Some v)
  /\ (forall (lm : Bootstrap.loggingMiddleware) op (a : Bootstrap.Args op) w path v,
      In (path, v) (Inputs.bootstrap op a) ->
      exists lc,
        logcalls (trace (snd (Bootstrap.method lm op a w)))
        = (logcalls (trace w) ++ [lc])%list
        /\ slog.lookup_path path (slog.call_attrs lc) = Some v).
Proof.
  split.
  - intros lm op a w path v Hnil Hin. revert Hnil Hin.
    destruct op; simpl in a; split_args a; simpl; intros Hnil Hin; try contradiction.
    all: unfold_users; run_go.
    all: match goal with
         | |- context [Users.svc ?l ?o ?a] =>
             destruct (Users.svc l o a) as [r e] || destruct (Users.svc l o a) as [e|]
         end.
    all: try match type of Hnil with
             | context [match fst (?r, _) with _ => _ end] =>
                 destruct r; [|discriminate Hnil]
             end.
    all: try match goal with e : error |- _ => destruct e end.
    all: cbn -[Logger.Warn Logger.Info].
    all: try match goal with
             | |- context [negb (String.eqb ?x ?y)] => destruct (String.eqb x y)
             end.
    all: cbn -[Logger.Warn Logger.Info]; rewrite ?Warn_run, ?Info_run.
    all: eexists; split; [apply logged_called_logcalls|].
    all: cbn; facets.
  - intros lm op a w path v Hin. revert Hin.
    destruct op; simpl in a; split_args a; simpl; intros Hin; try contradiction.
    all: unfold_bootstrap; run_go.
    all: match goal with
         | |- context [Bootstrap.svc ?l ?o ?a] =>
             destruct (Bootstrap.svc l o a) as [r e] || destruct (Bootstrap.svc l o a) as [e|]
         end.
    all: try match goal with e : error |- _ => destruct e end.
    all: cbn -[Logger.Warn Logger.Info]; rewrite ?Warn_run, ?Info_run.
    all: eexists; split; [apply logged_called_logcalls|].
    all: cbn; facets.
Qed.

(** X3: an operation of the certs middleware that succeeds logs the token it
    was called with, as given, under the key [token]; one that fails logs
    the text of the error and the duration and nothing else, so none of the
    arguments of the call. *)
Theorem certs_record_holds_the_token (lm : Certs.loggingMiddleware) op
  (a : Certs.Args op) w :
  exists lc,
    logcalls (trace (snd (Certs.method lm op a w))) = (logcalls (trace w) ++ [lc])%list
    /\ match Certs.err_of op (Certs.svc lm op a) with
       | None =>
           slog.lookup_key "token" (slog.call_attrs lc)
           = Some (slog.StringValue (Inputs.certs_token op a))
       | Some e =>
           slog.call_attrs lc
           = [slog.mkAttr "error" (slog.StringValue (Error e));
              slog.mkAttr "duration" (slog.StringValue (Duration_String (elapsed w)))]
       end.
Proof.
  destruct op; simpl in a; split_args a; simpl.
  all: unfold_certs; run_go.
  all: match goal with
       | |- context [Certs.svc ?l ?o ?a] => destruct (Certs.svc l o a) as [r [e|]]
       end.
  all: cbn -[Logger.Warn Logger.Info]; rewrite ?Warn_run, ?Info_run.
  all: eexists; split; [apply logged_called_logcalls | reflexivity].
Qed.

(** X4: an operation of the session handler's middleware panics exactly
    when it is a publication with a nil topic; it then panics before the
    clock is read or anything is logged.  A nil payload or nil topics of a
    subscription never make it panic. *)
Theorem handler_panics_on_nil_topic_only (lm : Handler.loggingMiddleware) op
  (a : Handler.Args op) w :
  ((exists reason, fst (Handler.method lm op a w) = Panicked reason)
   <-> Inputs.handler_nil_topic op a = true)
  /\ (forall reason, fst (Handler.method lm op a w) = Panicked reason ->
                     snd (Handler.method lm op a w) = w).
Proof.
  destruct op; simpl in a; split_args a; simpl.
  all: unfold_handler; run_go.
  all: repeat match goal with
         | x : option _ |- _ => destruct x
         end.
  all: cbn -[Logger.Warn Logger.Info]; rewrite ?Warn_run, ?Info_run; cbn [fst snd].
  all: split; [split|].
  all: try (intros [reason Hp]; discriminate Hp).
  all: try (intros Hp; discriminate Hp).
  all: try (intros reason Hp; discriminate Hp).
  all: try (intros _; eexists; reflexivity).
  all: try (intros; destruct w; reflexivity).
  all: try reflexivity.
Qed.

(** X5: an operation of the session handler's middleware that does not
    panic returns nil and hands one record to the logger: Info-level, with
    the message "<Operation>() completed successfully", the duration first,
    and the field [topics] exactly when the call has topics: the one topic
    of a publication, or the topics of a subscription. *)
Theorem handler_record (lm : Handler.loggingMiddleware) op (a : Handler.Args op) w :
  Inputs.handler_nil_topic op a = false ->
  exists lc,
    fst (Handler.method lm op a w) = Returned None
    /\ logcalls (trace (snd (Handler.method lm op a w))) = (logcalls (trace w) ++ [lc])%list
    /\ slog.call_level lc = slog.LevelInfo
    /\ slog.call_msg lc = Inputs.handler_action op ++ "() completed successfully"
    /\ slog.call_attrs lc
       = (slog.mkAttr "duration" (slog.StringValue (Duration_String (elapsed w)))
          :: match Inputs.handler_topics op a with
             | Some ts => [slog.mkAttr "topics" (slog.KindAny (slog.AnyStrings ts))]
             | None => []
             end)%list.
Proof.
  intros Hnil. revert Hnil.
  destruct op; simpl in a; split_args a; simpl; intros Hnil.
  all: unfold_handler; run_go.
  all: repeat match goal with
         | x : option _ |- _ => destruct x
         end.
  all: try discriminate Hnil.
  all: cbn -[Logger.Warn Logger.Info]; rewrite ?Warn_run, ?Info_run.
  all: eexists; split; [reflexivity|].
  all: cbn [snd]; unfold Logger.logged; cbn [trace].
  all: rewrite logcalls_app; cbn.
  all: rewrite ?app_nil_r; repeat split; reflexivity.
Qed.

End Records.

(** ** The same call, failing and not *)

Section Outcomes.
Context `{Platform}.

(** X6: for every operation of the users middleware, take a call that
    succeeds and the same call failing with the same result value.  When
    the result is not a nil token, the record of the failing call is the
    record of the succeeding one, Warn-level instead of Info-level and with
    the field [error] added at the end: every other field, drawn from the
    arguments or from the result, is there with the same value.  When the
    result is a nil token ([IssueToken], [RefreshToken]), both calls panic
    and neither hands a record to the logger. *)
Theorem users_failure_record_extends_success (lg : Logger.Logger)
  (svc svc' : Users.Service) op (a : Users.Args op) (e : GoError) w :
  Users.err_of op (svc op a) = None ->
  svc' op a = Outcome.users_failing op (svc op a) e ->
  if Users.nil_result op (svc op a)
  then (exists reason,
           fst (Users.method (Users.LoggingMiddleware svc lg) op a w) = Panicked reason
           /\ fst (Users.method (Users.LoggingMiddleware svc' lg) op a w) = Panicked reason)
       /\ logcalls (trace (snd (Users.method (Users.LoggingMiddleware svc lg) op a w)))
          = logcalls (trace w)
       /\ logcalls (trace (snd (Users.method (Users.LoggingMiddleware svc' lg) op a w)))
          = logcalls (trace w)
  else
    exists lc lc',
      logcalls (trace (snd (Users.method (Users.LoggingMiddleware svc lg) op a w)))
      = (logcalls (trace w) ++ [lc])%list
      /\ logcalls (trace (snd (Users.method (Users.LoggingMiddleware svc' lg) op a w)))
         = (logcalls (trace w) ++ [lc'])%list
      /\ slog.call_level lc = slog.LevelInfo
      /\ slog.call_level lc' = slog.LevelWarn
      /\ slog.call_attrs lc'
         = (slog.call_attrs lc
            ++ [slog.mkAttr "error" (slog.KindAny (slog.AnyError e))])%list.
Proof.
  intros Herr Hsvc.
  destruct (Users.nil_result op (svc op a)) eqn:Hnil.
  { assert (Hnil' : Users.nil_result op (svc' op a) = true).
    { rewrite Hsvc. clear - Hnil.
      destruct op; simpl in *; try discriminate Hnil; exact Hnil. }
    rewrite (users_nil_run (Users.LoggingMiddleware svc lg) op a w Hnil).
    rewrite (users_nil_run (Users.LoggingMiddleware svc' lg) op a w Hnil').
    cbn [fst snd]. unfold called. cbn [trace].
    rewrite logcalls_app. simpl. rewrite app_nil_r.
    split; [eexists; split; reflexivity|]. split; reflexivity. }
  revert Herr Hnil Hsvc.
  destruct op; simpl in a; split_args a; simpl; intros Herr Hnil Hsvc.
  all: unfold_users; run_go; cbn [Users.svc Users.logger Users.LoggingMiddleware]; rewrite Hsvc.
  all: match type of Herr with
       | snd ?x = None => destruct x as [res e0]
       | ?x = None => destruct x as [e0|]
       end.
  all: simpl in Herr; try subst e0; try discriminate Herr.
  all: try match type of Hnil with
           | context [match fst (?r, _) with _ => _ end] =>
               destruct r; [|discriminate Hnil]
           end.
  all: cbn -[Logger.Warn Logger.Info].
  all: try match goal with
           | |- context [negb (String.eqb ?x ?y)] => destruct (String.eqb x y)
           end.
  all: cbn -[Logger.Warn Logger.Info]; rewrite ?Warn_run, ?Info_run.
  all: eexists; eexists.
  all: split; [apply logged_called_logcalls|].
  all: split; [apply logged_called_logcalls|].
  all: repeat split; reflexivity.
Qed.

(** X7: the same for every operation of the bootstrap middleware. *)
Theorem bootstrap_failure_record_extends_success (lg : Logger.Logger)
  (svc svc' : Bootstrap.Service) op (a : Bootstrap.Args op) (e : GoError) w :
  Bootstrap.err_of op (svc op a) = None ->
  svc' op a = Outcome.bootstrap_failing op (svc op a) e ->
  exists lc lc',
    logcalls (trace (snd (Bootstrap.method (Bootstrap.LoggingMiddleware svc lg) op a w)))
    = (logcalls (trace w) ++ [lc])%list
    /\ logcalls (trace (snd (Bootstrap.method (Bootstrap.LoggingMiddleware svc' lg) op a w)))
       = (logcalls (trace w) ++ [lc'])%list
    /\ slog.call_level lc = slog.LevelInfo
    /\ slog.call_level lc' = slog.LevelWarn
    /\ slog.call_attrs lc'
       = (slog.call_attrs lc
          ++ [slog.mkAttr "error" (slog.KindAny (slog.AnyError e))])%list.
Proof.
  intros Herr Hsvc. revert Herr Hsvc.
  destruct op; simpl in a; split_args a; simpl; intros Herr Hsvc.
  all: unfold_bootstrap; run_go; cbn [Bootstrap.svc Bootstrap.logger Bootstrap.LoggingMiddleware]; rewrite Hsvc.
  all: match type of Herr with
       | snd ?x = None => destruct x as [res e0]
       | ?x = None => destruct x as [e0|]
       end.
  all: simpl in Herr; try subst e0; try discriminate Herr.
  all: cbn -[Logger.Warn Logger.Info]; rewrite ?Warn_run, ?Info_run.
  all: eexists; eexists.
  all: split; [apply logged_called_logcalls|].
  all: split; [apply logged_called_logcalls|].
  all: repeat split; reflexivity.
Qed.

End Outcomes.

(** ** What a call adds to the sink *)

Section Sink.
Context `{Platform}.

Lemma logged_one_line {C : Type} (l : Logger.Logger) (lc : slog.logcall) (w w0 : world C) :
  sink w0 = sink w ->
  slog.call_level lc = slog.LevelInfo \/ slog.call_level lc = slog.LevelWarn ->
  Outcome.one_line_at_most l w (Logger.logged l lc w0).
Proof.
  intros Hsink Hlevel. unfold Outcome.one_line_at_most.
  rewrite logged_sink, Hsink.
  destruct (Logger.HandlerLevel l <=? slog.call_level lc)%Z eqn:Hle.
  - eexists; split; [reflexivity|]. right. eexists; split; [reflexivity|].
    simpl. split; [now apply Z.leb_le | exact Hlevel].
  - exists []. split; [reflexivity | now left].
Qed.

Lemma level_of_Info_or_Warn (err : error) :
  Contract.level_of err = slog.LevelInfo \/ Contract.level_of err = slog.LevelWarn.
Proof. destruct err; [now right | now left]. Qed.

Lemma one_line_silent {C : Type} (l : Logger.Logger) (w w' : world C) :
  Outcome.one_line_at_most l w w' ->
  (slog.LevelWarn <? Logger.HandlerLevel l)%Z = true ->
  sink w' = sink w.
Proof.
  intros (rs & Hsink & [-> | (r & -> & Hle & Hlevel)]) Hlt.
  - now rewrite Hsink, app_nil_r.
  - apply Z.ltb_lt in Hlt. unfold slog.LevelWarn, slog.LevelInfo in *.
    destruct Hlevel as [Hr | Hr]; rewrite Hr in Hle; lia.
Qed.

(** X8: a call of any operation of the four middlewares, whatever the
    wrapped service answers and whether or not the call panics, leaves the
    lines already in the sink as they are and adds at most one line, of
    level Info or Warn; with a handler whose level is above Warn no call of
    a middleware writes anything. *)
Theorem middlewares_add_one_line_at_most :
  (forall (lm : Users.loggingMiddleware) op (a : Users.Args op) w,
      Outcome.one_line_at_most (Users.logger lm) w (snd (Users.method lm op a w))
      /\ ((slog.LevelWarn <? Logger.HandlerLevel (Users.logger lm))%Z = true ->
          sink (snd (Users.method lm op a w)) = sink w))
  /\ (forall (lm : Bootstrap.loggingMiddleware) op (a : Bootstrap.Args op) w,
      Outcome.one_line_at_most (Bootstrap.logger lm) w (snd (Bootstrap.method lm op a w))
      /\ ((slog.LevelWarn <? Logger.HandlerLevel (Bootstrap.logger lm))%Z = true ->
          sink (snd (Bootstrap.method lm op a w)) = sink w))
  /\ (forall (lm : Certs.loggingMiddleware) op (a : Certs.Args op) w,
      Outcome.one_line_at_most (Certs.logger lm) w (snd (Certs.method lm op a w))
      /\ ((slog.LevelWarn <? Logger.HandlerLevel (Certs.logger lm))%Z = true ->
          sink (snd (Certs.method lm op a w)) = sink w))
  /\ (forall (lm : Handler.loggingMiddleware) op (a : Handler.Args op) w,
      Outcome.one_line_at_most (Handler.logger lm) w (snd (Handler.method lm op a w))
      /\ ((slog.LevelWarn <? Logger.HandlerLevel (Handler.logger lm))%Z = true ->
          sink (snd (Handler.method lm op a w)) = sink w)).
Proof.
  assert (Husers : forall (lm : Users.loggingMiddleware) op (a : Users.Args op) w,
             Outcome.one_line_at_most (Users.logger lm) w (snd (Users.method lm op a w))).
  { intros lm op a w.
    destruct (Users.nil_result op (Users.svc lm op a)) eqn:Hnil.
    - rewrite (users_nil_run lm op a w Hnil). exists []. simpl.
      split; [now rewrite app_nil_r | now left].
    - destruct (users_method_run lm op a w Hnil) as (lc & Hrun & Hl & _).
      rewrite Hrun. apply logged_one_line; [reflexivity|].
      rewrite Hl. apply level_of_Info_or_Warn. }
  assert (Hbootstrap : forall (lm : Bootstrap.loggingMiddleware) op (a : Bootstrap.Args op) w,
             Outcome.one_line_at_most (Bootstrap.logger lm) w
                                      (snd (Bootstrap.method lm op a w))).
  { intros lm op a w.
    destruct (bootstrap_method_run lm op a w) as (lc & Hrun & Hl & _).
    rewrite Hrun. apply logged_one_line; [reflexivity|].
    rewrite Hl. apply level_of_Info_or_Warn. }
  assert (Hcerts : forall (lm : Certs.loggingMiddleware) op (a : Certs.Args op) w,
             Outcome.one_line_at_most (Certs.logger lm) w (snd (Certs.method lm op a w))).
  { intros lm op a w.
    destruct (certs_method_run lm op a w) as (lc & Hrun & Hl & _).
    rewrite Hrun. apply logged_one_line; [reflexivity|].
    rewrite Hl. apply level_of_Info_or_Warn. }
  assert (Hhandler : forall (lm : Handler.loggingMiddleware) op (a : Handler.Args op) w,
             Outcome.one_line_at_most (Handler.logger lm) w (snd (Handler.method lm op a w))).
  { intros lm op a w.
    destruct (handler_method_run lm op a w) as [(lc & Hrun & Hl & _) | (reason & Hrun)];
      rewrite Hrun.
    - apply logged_one_line; [reflexivity | now left].
    - exists []. simpl. split; [now rewrite app_nil_r | now left]. }
  repeat split; auto; intros Hlt; eapply one_line_silent; eauto.
Qed.

End Sink.

(** ** Calls in sequence *)

Section Sequences.
Context `{Platform}.

Lemma users_sequence_cons (lm : Users.loggingMiddleware) op (a : Users.Args op)
  (reqs : list Users.Call) w :
  Sequence.users lm (existT _ op a :: reqs) w
  = match Users.method lm op a w with
    | (Returned _, w') => Sequence.users lm reqs w'
    | (Panicked reason, w') => (Panicked reason, w')
    end.
Proof. reflexivity. Qed.

(** X9: calls of the users middleware made one after the other, none of
    which meets a nil token, all return; the wrapped service has then been
    called once per call, in the order and with the arguments of the calls,
    and the logger has got one record per call, in the same order, each
    Warn-level or Info-level as the service answered that call with an error
    or not. *)
Theorem users_calls_in_sequence (lm : Users.loggingMiddleware)
  (reqs : list Users.Call) w :
  Forall (fun c => Sequence.users_nil lm c = false) reqs ->
  exists lcs,
    fst (Sequence.users lm reqs w) = Returned tt
    /\ invocations (trace (snd (Sequence.users lm reqs w)))
       = (invocations (trace w) ++ reqs)%list
    /\ logcalls (trace (snd (Sequence.users lm reqs w))) = (logcalls (trace w) ++ lcs)%list
    /\ map slog.call_level lcs
       = map (fun c => Contract.level_of (Sequence.users_error lm c)) reqs.
Proof.
  revert w. induction reqs as [|[op a] reqs IH]; intros w Hall.
  - exists []. simpl. now rewrite !app_nil_r.
  - inversion Hall as [|c cs Hnil Hrest]; subst.
    unfold Sequence.users_nil in Hnil; simpl in Hnil.
    destruct (users_method_run lm op a w Hnil) as (lc & Hrun & Hl & _).
    rewrite users_sequence_cons, Hrun.
    destruct (IH (Logger.logged (Users.logger lm) lc (called w (existT _ op a))) Hrest)
      as (lcs & Hret & Hinv & Hlog & Hlevels).
    exists (lc :: lcs).
    rewrite Hret, Hinv, Hlog, logged_called_invocations, logged_called_logcalls.
    rewrite <- !app_assoc. simpl.
    repeat split; try reflexivity.
    rewrite Hl, Hlevels. reflexivity.
Qed.

Lemma logger_sequence_cons {C : Type} (l : slogger.logger) (ctx : Context)
  (op : Level.Level) (msg : string) (calls : list (Level.Level * string)) (w : world C) :
  Sequence.logger l ctx ((op, msg) :: calls) w
  = match slogger.operation op l ctx msg w with
    | (Returned _, w') => Sequence.logger l ctx calls w'
    | (Panicked reason, w') => (Panicked reason, w')
    end.
Proof. reflexivity. Qed.

(** X10: operations called one after the other on a logger built by [New]
    of logger/slogger.go write the lines of those the threshold allows, and
    only those, in the order of the calls, after the lines already in the
    sink; each line is stamped with the next reading of the clock, and a
    call below the threshold reads no clock. *)
Theorem logger_calls_in_sequence {C : Type} (threshold : Level.Level) (ctx : Context)
  (calls : list (Level.Level * string)) (w : world C) :
  let l := slogger.mkLogger (Logger.NewJSONLogger slog.LevelDebug) threshold in
  fst (Sequence.logger l ctx calls w) = Returned tt
  /\ sink (snd (Sequence.logger l ctx calls w))
     = (sink w ++ Sequence.lines threshold (clock w) (reads w) calls)%list
  /\ reads (snd (Sequence.logger l ctx calls w))
     = reads w + length (Sequence.lines threshold (clock w) (reads w) calls)
  /\ clock (snd (Sequence.logger l ctx calls w)) = clock w.
Proof.
  intros l. revert w. induction calls as [|[op msg] calls IH]; intros w.
  - simpl. rewrite app_nil_r, Nat.add_0_r. repeat split; reflexivity.
  - rewrite logger_sequence_cons.
    assert (Hop : slogger.operation op l ctx msg w
                  = (Returned tt,
                     if Level.isAllowed op threshold
                     then mkWorld (clock w) (S (reads w))
                            (trace w ++ [Log (slog.LogCall (Sequence.slog_level op)
                                                (slog.rMessage (Sequence.line 0 op msg))
                                                (match op with
                                                 | Level.Debug => [slog.AnyString msg]
                                                 | _ => []
                                                 end))])
                            (sink w ++ [Sequence.line (clock w (reads w)) op msg])
                     else w)).
    { destruct op; cbn -[Logger.Log_ Level.isAllowed];
        unfold slogger.Debug, slogger.Info, slogger.Warn, slogger.Error;
        cbn -[Logger.Log_ Level.isAllowed];
        destruct (Level.isAllowed _ threshold);
        rewrite ?sLogger_writes by reflexivity; reflexivity. }
    rewrite Hop. cbn [Sequence.lines].
    destruct (Level.isAllowed op threshold).
    + destruct (IH (mkWorld (clock w) (S (reads w))
                      (trace w ++ [Log (slog.LogCall (Sequence.slog_level op)
                                          (slog.rMessage (Sequence.line 0 op msg))
                                          (match op with
                                           | Level.Debug => [slog.AnyString msg]
                                           | _ => []
                                           end))])
                      (sink w ++ [Sequence.line (clock w (reads w)) op msg])))
        as (Hret & Hsink & Hreads & Hclock).
      rewrite Hret, Hsink, Hreads, Hclock. simpl.
      rewrite <- app_assoc. simpl. repeat split; try reflexivity. lia.
    + destruct (IH w) as (Hret & Hsink & Hreads & Hclock).
      rewrite Hret, Hsink, Hreads, Hclock. repeat split; reflexivity.
Qed.

End Sequences.

(** ** The start of the cassandra writer *)

Ltac main_step :=
  match goal with
  | |- context [match ?e with Some _ => _ | None => _ end] => is_var e; destruct e
  | |- context [if ?b then _ else _] => is_var b; destruct b
  | |- context [if String.eqb ?s EmptyString then _ else _] =>
      is_var s; destruct (String.eqb s EmptyString)
  end.

Ltac main_run Hallowed :=
  unfold Main.main, Main.run, Main.newService, Main.logger_Error, Main.ext,
    slogger.Error, Logger.Log_, Logger.log, defer, bind, deref, emit, write,
    time_Now, ret;
  cbn -[Level.isAllowed]; rewrite ?Hallowed;
  repeat (main_step; cbn).

Ltac destruct_externals x :=
  destruct x as [[lvl path broker jaeger telemetry iid ratio]
                   eparse emflog [uid euuid] ehttp edb eprov eshut epub econs ewait];
  cbn [Main.x_config Main.x_env_Parse Main.x_mflog_New Main.x_uuid_ID
       Main.x_env_ParseWithOptions Main.x_SetupDB Main.x_NewProvider Main.x_Shutdown
       Main.x_NewPubSub Main.x_consumers_Start Main.x_Wait Main.InstanceID
       Main.LogLevel Main.SendTelemetry snd] in *.

Lemma append_empty_r (s : string) : (s ++ EmptyString)%string = s.
Proof. induction s as [|c s IH]; simpl; [reflexivity | now rewrite IH]. Qed.

Section MainFacts.
Context `{Platform}.

(** [main] when it ends in [log.Fatalf]. *)
Lemma main_fatal_run (x : Main.Externals) (w : world Main.call) :
  let w' := mkWorld (clock w) (reads w)
                    (trace w ++ [Invoke (Main.Called Main.env_Parse (Main.x_env_Parse x))])
                    (sink w) in
  (forall e, Main.x_env_Parse x = Some e ->
             Main.main x w
             = (Returned (Main.Fatalf ("failed to load cassandra-writer configuration : "
                                       ++ Error e)), w'))
  /\ (Main.x_env_Parse x = None ->
      Level.parse (Main.LogLevel (Main.x_config x)) = None ->
      Main.main x w
      = (Returned (Main.Fatalf
                     ("failed to init logger: "
                      ++ Contract.diagnostic (Error ErrInvalidLogLevel)
                           (Main.LogLevel (Main.x_config x)) time_RFC3339Nano)), w')).
Proof.
  intros w'. subst w'. split.
  - intros e He. unfold Main.main, Main.ext, bind, emit, ret. rewrite He.
    cbn. now rewrite append_empty_r.
  - intros He Hparse.
    unfold Main.main, Main.ext, bind, emit, ret. rewrite He.
    rewrite (New_rejects _ _ Hparse). cbn [Main.Sprintf].
    unfold fmt_Errorf. rewrite New_format_diagnostic. cbn. now rewrite append_empty_r.
Qed.

(** X11: when the configuration cannot be read, or when the configured
    level text is not a level, [main] ends in [log.Fatalf] right after
    [env.Parse]: no other function is called, the deferred exit is not
    registered, the clock is not read and nothing is written to the sink.
    The message of the second case holds the diagnostic of [New]. *)
Theorem main_fatal (x : Main.Externals) (w : world Main.call) :
  (Main.x_env_Parse x <> None
   \/ Level.parse (Main.LogLevel (Main.x_config x)) = None) ->
  exists msg,
    Main.main x w
    = (Returned (Main.Fatalf msg),
       mkWorld (clock w) (reads w)
               (trace w ++ [Invoke (Main.Called Main.env_Parse (Main.x_env_Parse x))])
               (sink w))
    /\ msg = match Main.x_env_Parse x with
             | Some e => "failed to load cassandra-writer configuration : " ++ Error e
             | None =>
                 "failed to init logger: "
                 ++ Contract.diagnostic (Error ErrInvalidLogLevel)
                      (Main.LogLevel (Main.x_config x)) time_RFC3339Nano
             end.
Proof.
  intros Hfatal.
  destruct (main_fatal_run x w) as [Henv Hlevel].
  destruct (Main.x_env_Parse x) as [e|] eqn:He.
  - eexists. split; [apply Henv; reflexivity | reflexivity].
  - destruct Hfatal as [Hne | Hparse]; [now contradiction Hne|].
    eexists. split; [apply Hlevel; [reflexivity | exact Hparse] | reflexivity].
Qed.

(** [main] past its two fatal exits, on a logger with the threshold [t]. *)
Lemma main_unfold (x : Main.Externals) (t : Level.Level) (w : world Main.call) :
  Main.x_env_Parse x = None ->
  Level.parse (Main.LogLevel (Main.x_config x)) = Some t ->
  Main.main x w
  = (let logger := Some (slogger.mkLogger (Logger.NewJSONLogger slog.LevelDebug) t) in
     Main.ext (Main.mflog_New (Main.LogLevel (Main.x_config x))) (Main.x_mflog_New x) ;;;
     match Main.x_mflog_New x with
     | Some e => Main.logger_Error logger [] (Main.Sprintf "failed to create logger: %s" [Error e])
     | None => ret tt
     end ;;;
     exitCode <- defer (fun exitCode => Main.ext (Main.mglog_ExitWithError exitCode) None)
                       (Main.run x logger []) ;;
     ret (Main.Exit exitCode))
      (mkWorld (clock w) (reads w)
               (trace w ++ [Invoke (Main.Called Main.env_Parse None)]) (sink w)).
Proof.
  intros He Hparse. unfold Main.main. unfold bind at 1. unfold Main.ext at 1, emit.
  rewrite He. unfold bind at 1. rewrite (New_accepts _ _ _ Hparse). reflexivity.
Qed.

(** X12: when the configuration is read and the level text is a level,
    [main] does not panic and ends by handing its exit code to the deferred
    [mglog.ExitWithError], the last call it makes.  The exit code is 1 when
    one of the startup steps fails (generating the instance ID when none is
    configured, reading the HTTP configuration, connecting to Cassandra,
    Jaeger or the message broker, starting the consumer) and 0 otherwise:
    a failure of the second logger, of the tracer's shutdown or of the
    servers ([g.Wait]) does not change it.  The servers are started exactly
    when no startup step fails. *)
Theorem main_exit_code (x : Main.Externals) (t : Level.Level) (w : world Main.call) :
  Main.x_env_Parse x = None ->
  Level.parse (Main.LogLevel (Main.x_config x)) = Some t ->
  let exitCode := if Main.startup_fails x then 1%Z else 0%Z in
  exists calls,
    fst (Main.main x w) = Returned (Main.Exit exitCode)
    /\ invocations (trace (snd (Main.main x w)))
       = (invocations (trace w)
          ++ calls ++ [Main.Called (Main.mglog_ExitWithError exitCode) None])%list
    /\ (In (Main.Called Main.g_Wait (Main.x_Wait x)) calls
        <-> Main.startup_fails x = false).
Proof.
  intros He Hparse exitCode. subst exitCode.
  rewrite (main_unfold x t w He Hparse). clear He Hparse.
  unfold Main.startup_fails.
  assert (Hallowed : Level.isAllowed Level.Error t = true) by (destruct t; reflexivity).
  destruct_externals x.
  main_run Hallowed.
  all: rewrite !invocations_app; cbn; rewrite <- ?app_assoc; cbn.
  all: eexists; split; [reflexivity|]; split;
         [ match goal with
           | |- (?a ++ ?l)%list = (?a ++ ?c ++ [?z])%list =>
               let r := eval cbv in (removelast l) in unify c r; reflexivity
           end
         | cbn; split; [intros Hin | intros Hf];
           repeat match goal with
                  | Hin : _ \/ _ |- _ => destruct Hin as [Hin | Hin]
                  | Hin : False |- _ => contradiction
                  | Hin : Main.Called _ _ = Main.Called _ _ |- _ => discriminate Hin
                  | Hf : true = false |- _ => discriminate Hf
                  end;
           try reflexivity; tauto ].
Qed.

(** X13: in every run of [main], the connection to Cassandra, the tracer
    provider and the connection to the broker that were obtained are
    released once each, in the reverse order, and only on the way out:
    after the first release nothing is acquired any more. *)
Theorem main_releases_in_reverse (x : Main.Externals) (w : world Main.call) :
  exists body cleanup,
    invocations (trace (snd (Main.main x w)))
    = (invocations (trace w) ++ body ++ cleanup)%list
    /\ flat_map Main.released body = []
    /\ flat_map Main.acquired cleanup = []
    /\ flat_map Main.released cleanup = rev (flat_map Main.acquired body).
Proof.
  destruct (Main.x_env_Parse x) as [e|] eqn:He.
  - rewrite (proj1 (main_fatal_run x w) e He). cbn [snd trace].
    rewrite invocations_app, He. exists [Main.Called Main.env_Parse (Some e)], [].
    repeat split; reflexivity.
  - destruct (Level.parse (Main.LogLevel (Main.x_config x))) as [t|] eqn:Hparse.
    + rewrite (main_unfold x t w He Hparse). clear He Hparse.
      assert (Hallowed : Level.isAllowed Level.Error t = true) by (destruct t; reflexivity).
      destruct_externals x.
      main_run Hallowed.
      all: rewrite !invocations_app; cbn; rewrite <- ?app_assoc; cbn.
      all: match goal with
           | |- exists body cleanup, (?a ++ ?l)%list = (?a ++ body ++ cleanup)%list /\ _ =>
               let b := eval cbv in (Main.before_release l) in
               let c := eval cbv in (Main.from_release l) in
               exists b, c
           end.
      all: repeat split; reflexivity.
    + rewrite (proj2 (main_fatal_run x w) He Hparse). cbn [snd trace].
      rewrite invocations_app, He. exists [Main.Called Main.env_Parse None], [].
      repeat split; reflexivity.
Qed.

(** X14: on a logger whose threshold allows Error, every line that [main]
    itself writes is Error-level and has no attribute, and a run that ends
    with the exit code 1 has written at least one: no startup failure is
    silent. *)
Theorem main_reports_failures (x : Main.Externals) (t : Level.Level)
  (w : world Main.call) :
  Main.x_env_Parse x = None ->
  Level.parse (Main.LogLevel (Main.x_config x)) = Some t ->
  Level.isAllowed Level.Error t = true ->
  exists rs,
    sink (snd (Main.main x w)) = (sink w ++ rs)%list
    /\ Forall (fun r => slog.rLevel r = slog.LevelError /\ slog.rAttrs r = []) rs
    /\ (Main.startup_fails x = true -> 1 <= length rs).
Proof.
  intros He Hparse Hallowed.
  rewrite (main_unfold x t w He Hparse). clear He Hparse.
  unfold Main.startup_fails.
  destruct_externals x.
  main_run Hallowed.
  all: rewrite <- ?app_assoc; cbn.
  all: eexists; split; [reflexivity || (symmetry; apply app_nil_r)|].
  all: split; [repeat constructor|].
  all: cbn; try lia; intros Hf; discriminate Hf.
Qed.

End MainFacts.

(** ** The two constructors *)


(** ** Instances of the theorems above *)

(** [IssueToken] with two different secrets. *)
Lemma users_record_ignores_credentials_witness :
  let lm := Users.LoggingMiddleware (Users.fails_with_token Example.errNotFound)
                                    Example.verbose in
  let a : Users.Args Users.opIssueToken :=
    (Example.ctx, "admin@example.com", "12345678", "domain-1") in
  let a' : Users.Args Users.opIssueToken :=
    (Example.ctx, "admin@example.com", "qwertyuiop", "domain-1") in
  logcalls (trace (snd (@Users.method Example.platform lm Users.opIssueToken a
                          Example.start)))
  = logcalls (trace (snd (@Users.method Example.platform lm Users.opIssueToken a'
                            Example.start)))
  /\ sink (snd (@Users.method Example.platform lm Users.opIssueToken a Example.start))
     = sink (snd (@Users.method Example.platform lm Users.opIssueToken a' Example.start)).
Proof.
  intros lm a a'.
  apply (@users_record_ignores_credentials Example.platform lm Users.opIssueToken a a');
    reflexivity.
Defined.

(** [ListMembers] that fails, and [ChangeState] that fails. *)
Lemma input_fields_are_logged_witness :
  let users := Users.LoggingMiddleware (Users.fails Example.errNotFound) Example.verbose in
  let bootstrap :=
    Bootstrap.LoggingMiddleware (Bootstrap.fails Example.errNotFound) Example.verbose in
  (exists lc,
      logcalls (trace (snd (@Users.method Example.platform users Users.opListMembers
                              (Example.ctx, "token", "groups", "g-1", Users.mkPage 10 0)
                              Example.start)))
      = (logcalls (trace (@Example.start Users.Call)) ++ [lc])%list
      /\ slog.lookup_path ["page"; "limit"] (slog.call_attrs lc)
         = Some (slog.Uint64Value 10))
  /\ (exists lc,
      logcalls (trace (snd (@Bootstrap.method Example.platform bootstrap
                              Bootstrap.opChangeState
                              (Example.ctx, "token", "cfg-1", 1%Z) Example.start)))
      = (logcalls (trace (@Example.start Bootstrap.Call)) ++ [lc])%list
      /\ slog.lookup_path ["state"] (slog.call_attrs lc)
         = Some (slog.KindAny (slog.AnyNamedInt 1))).
Proof.
  intros users bootstrap.
  destruct (@input_fields_are_logged Example.platform) as [Husers Hbootstrap].
  split.
  - apply (Husers users Users.opListMembers); [reflexivity|].
    simpl. right. right. left. reflexivity.
  - apply (Hbootstrap bootstrap Bootstrap.opChangeState).
    simpl. right. left. reflexivity.
Defined.

(** [AuthPublish] with a topic and no payload. *)
Lemma handler_record_witness :
  let lm := Handler.LoggingMiddleware (Handler.fails Example.errNotFound) Example.verbose in
  let a : Handler.Args Handler.opAuthPublish :=
    (Example.ctx, Some "channels/1/messages", None) in
  exists lc,
    fst (@Handler.method Example.platform lm Handler.opAuthPublish a Example.start)
    = Returned None
    /\ logcalls (trace (snd (@Handler.method Example.platform lm Handler.opAuthPublish a
                               Example.start)))
       = (logcalls (trace (@Example.start Handler.Call)) ++ [lc])%list
    /\ slog.call_level lc = slog.LevelInfo
    /\ slog.call_msg lc = "AuthPublish() completed successfully"
    /\ slog.call_attrs lc
       = [slog.mkAttr "duration" (slog.StringValue "250ns");
          slog.mkAttr "topics" (slog.KindAny (slog.AnyStrings ["channels/1/messages"]))].
Proof.
  intros lm a.
  apply (@handler_record Example.platform lm Handler.opAuthPublish a Example.start).
  reflexivity.
Defined.

(** [UpdateClient] succeeding and failing, and [IssueToken] with a nil
    token in both answers. *)
Lemma users_failure_record_extends_success_witness :
  let a : Users.Args Users.opUpdateClient := (Example.ctx, "token", Samples.alice) in
  let b : Users.Args Users.opIssueToken :=
    (Example.ctx, "admin@example.com", "12345678", "domain-1") in
  (exists lc lc',
      logcalls (trace (snd (@Users.method Example.platform
                              (Users.LoggingMiddleware Samples.users_ok Example.verbose)
                              Users.opUpdateClient a Example.start)))
      = (logcalls (trace (@Example.start Users.Call)) ++ [lc])%list
      /\ logcalls (trace (snd (@Users.method Example.platform
                                 (Users.LoggingMiddleware
                                    (Samples.users_ko Example.errNotFound) Example.verbose)
                                 Users.opUpdateClient a Example.start)))
         = (logcalls (trace (@Example.start Users.Call)) ++ [lc'])%list
      /\ slog.call_level lc = slog.LevelInfo
      /\ slog.call_level lc' = slog.LevelWarn
      /\ slog.call_attrs lc'
         = (slog.call_attrs lc
            ++ [slog.mkAttr "error" (slog.KindAny (slog.AnyError Example.errNotFound))])%list)
  /\ ((exists reason,
          fst (@Users.method Example.platform
                 (Users.LoggingMiddleware Samples.users_nil_ok Example.verbose)
                 Users.opIssueToken b Example.start) = Panicked reason
          /\ fst (@Users.method Example.platform
                    (Users.LoggingMiddleware
                       (Samples.users_nil_ko Example.errNotFound) Example.verbose)
                    Users.opIssueToken b Example.start) = Panicked reason)
      /\ logcalls (trace (snd (@Users.method Example.platform
                                 (Users.LoggingMiddleware Samples.users_nil_ok
                                    Example.verbose)
                                 Users.opIssueToken b Example.start)))
         = logcalls (trace (@Example.start Users.Call))
      /\ logcalls (trace (snd (@Users.method Example.platform
                                 (Users.LoggingMiddleware
                                    (Samples.users_nil_ko Example.errNotFound)
                                    Example.verbose)
                                 Users.opIssueToken b Example.start)))
         = logcalls (trace (@Example.start Users.Call))).
Proof.
  intros a b. split.
  - exact (@users_failure_record_extends_success Example.platform Example.verbose
             Samples.users_ok (Samples.users_ko Example.errNotFound)
             Users.opUpdateClient a Example.errNotFound Example.start
             eq_refl eq_refl).
  - exact (@users_failure_record_extends_success Example.platform Example.verbose
             Samples.users_nil_ok (Samples.users_nil_ko Example.errNotFound)
             Users.opIssueToken b Example.errNotFound Example.start
             eq_refl eq_refl).
Defined.

(** [Add] succeeding and failing. *)
Lemma bootstrap_failure_record_extends_success_witness :
  let a : Bootstrap.Args Bootstrap.opAdd :=
    (Example.ctx, "token", Bootstrap.mkConfig "thing-1") in
  exists lc lc',
    logcalls (trace (snd (@Bootstrap.method Example.platform
                            (Bootstrap.LoggingMiddleware Samples.bootstrap_ok Example.verbose)
                            Bootstrap.opAdd a Example.start)))
    = (logcalls (trace (@Example.start Bootstrap.Call)) ++ [lc])%list
    /\ logcalls (trace (snd (@Bootstrap.method Example.platform
                               (Bootstrap.LoggingMiddleware
                                  (Samples.bootstrap_ko Example.errNotFound)
                                  Example.verbose)
                               Bootstrap.opAdd a Example.start)))
       = (logcalls (trace (@Example.start Bootstrap.Call)) ++ [lc'])%list
    /\ slog.call_level lc = slog.LevelInfo
    /\ slog.call_level lc' = slog.LevelWarn
    /\ slog.call_attrs lc'
       = (slog.call_attrs lc
          ++ [slog.mkAttr "error" (slog.KindAny (slog.AnyError Example.errNotFound))])%list.
Proof.
  intros a.
  apply (@bootstrap_failure_record_extends_success Example.platform Example.verbose
           Samples.bootstrap_ok (Samples.bootstrap_ko Example.errNotFound)
           Bootstrap.opAdd a Example.errNotFound Example.start); reflexivity.
Defined.

(** A registration that succeeds, then a token issued. *)
Lemma users_calls_in_sequence_witness :
  let lm := Users.LoggingMiddleware Samples.users_ok Example.verbose in
  exists lcs,
    fst (@Sequence.users Example.platform lm Samples.requests Example.start) = Returned tt
    /\ invocations (trace (snd (@Sequence.users Example.platform lm Samples.requests
                                  Example.start)))
       = (invocations (trace (@Example.start Users.Call)) ++ Samples.requests)%list
    /\ logcalls (trace (snd (@Sequence.users Example.platform lm Samples.requests
                               Example.start)))
       = (logcalls (trace (@Example.start Users.Call)) ++ lcs)%list
    /\ map slog.call_level lcs
       = map (fun c => Contract.level_of (Sequence.users_error lm c)) Samples.requests.
Proof.
  intros lm.
  apply (@users_calls_in_sequence Example.platform lm Samples.requests Example.start).
  repeat constructor.
Defined.

(** The level text "loud" is not a level. *)
Lemma main_fatal_witness :
  let x := Main.mkExternals
             (Main.mkConfig "loud" "/config.toml" "nats://localhost:4222"
                            "http://jaeger:14268/api/traces" true EmptyString 0)
             None None (EmptyString, None) None None None None None None None in
  exists msg,
    @Main.main Example.platform x Example.start
    = (Returned (Main.Fatalf msg),
       mkWorld (clock (@Example.start Main.call)) (reads (@Example.start Main.call))
               (trace (@Example.start Main.call)
                ++ [Invoke (Main.Called Main.env_Parse (Main.x_env_Parse x))])
               (sink (@Example.start Main.call)))
    /\ msg = match Main.x_env_Parse x with
             | Some e => "failed to load cassandra-writer configuration : " ++ Error e
             | None =>
                 "failed to init logger: "
                 ++ Contract.diagnostic (Error (@ErrInvalidLogLevel Example.platform))
                      (Main.LogLevel (Main.x_config x)) time_RFC3339Nano
             end.
Proof.
  intros x.
  apply (@main_fatal Example.platform x Example.start).
  right. reflexivity.
Defined.

(** No instance ID is configured and none can be generated: exit code 1. *)
Lemma main_exit_code_witness :
  let x := Samples.no_instance_id in
  let exitCode := if Main.startup_fails x then 1%Z else 0%Z in
  exists calls,
    fst (@Main.main Example.platform x Example.start) = Returned (Main.Exit exitCode)
    /\ invocations (trace (snd (@Main.main Example.platform x Example.start)))
       = (invocations (trace (@Example.start Main.call))
          ++ calls ++ [Main.Called (Main.mglog_ExitWithError exitCode) None])%list
    /\ (In (Main.Called Main.g_Wait (Main.x_Wait x)) calls
        <-> Main.startup_fails x = false).
Proof.
  intros x.
  apply (@main_exit_code Example.platform x Level.Info Example.start); reflexivity.
Defined.

(** The same run writes one Error line. *)
Lemma main_reports_failures_witness :
  let x := Samples.no_instance_id in
  exists rs,
    sink (snd (@Main.main Example.platform x Example.start))
    = (sink (@Example.start Main.call) ++ rs)%list
    /\ Forall (fun r => slog.rLevel r = slog.LevelError /\ slog.rAttrs r = []) rs
    /\ (Main.startup_fails x = true -> 1 <= length rs).
Proof.
  intros x.
  apply (@main_reports_failures Example.platform x Level.Info Example.start); reflexivity.
Defined.


(** The two sample runs of [main], call by call. *)
Lemma main_sample_runs :
  invocations (trace (snd (@Main.main Example.platform Samples.no_instance_id
                             Example.start)))
  = [Main.Called Main.env_Parse None;
     Main.Called (Main.mflog_New "info") None;
     Main.Called Main.uuid_ID (Some (errors_New "no entropy"));
     Main.Called (Main.mglog_ExitWithError 1) None]
  /\ map slog.rMessage
         (sink (snd (@Main.main Example.platform Samples.no_instance_id Example.start)))
     = ["failed to generate instanceID: no entropy"]
  /\ invocations (trace (snd (@Main.main Example.platform Samples.all_well Example.start)))
     = [Main.Called Main.env_Parse None;
        Main.Called (Main.mflog_New "info") None;
        Main.Called (Main.env_ParseWithOptions "MG_CASSANDRA_WRITER_HTTP_") None;
        Main.Called (Main.cassandraclient_SetupDB "MG_CASSANDRA_") None;
        Main.Called (Main.jaegerclient_NewProvider "cassandra-writer"
                       "http://jaeger:14268/api/traces" "writer-1" 0) None;
        Main.Called (Main.tp_Tracer "cassandra-writer") None;
        Main.Called Main.cassandra_New None;
        Main.Called Main.api_LoggingMiddleware None;
        Main.Called (Main.internal_MakeMetrics "cassandra" "message_writer") None;
        Main.Called Main.api_MetricsMiddleware None;
        Main.Called Main.consumertracing_NewBlocking None;
        Main.Called (Main.brokers_NewPubSub "nats://localhost:4222") None;
        Main.Called Main.brokerstracing_NewPubSub None;
        Main.Called (Main.consumers_Start "cassandra-writer" "/config.toml") None;
        Main.Called (Main.api_MakeHandler "cassandra-writer" "writer-1") None;
        Main.Called Main.httpserver_New None;
        Main.Called (Main.chclient_New "cassandra-writer") None;
        Main.Called Main.go_CallHome None;
        Main.Called Main.go_hs_Start None;
        Main.Called Main.go_StopSignalHandler None;
        Main.Called Main.g_Wait None;
        Main.Called Main.pubSub_Close None;
        Main.Called Main.tp_Shutdown None;
        Main.Called Main.csdSession_Close None;
        Main.Called (Main.mglog_ExitWithError 0) None].
Proof. repeat split; reflexivity. Qed.
